(** * Session handlers of the auth controller

    A shallow embedding of [src/controller/auth.controller.js]
    ([loginUser], [refreshTokenSets], [logOut]).  Each handler is an
    [async] function: it is embedded as a small program whose nodes are
    the handler's own synchronous effects on [res], [next] and the
    console, and its calls to functions imported from other modules.
    The modules that answer those calls are a parameter of the
    semantics ([Collaborators]); a request is either served from start
    to end ([run]) or in turns that end at its [await]s, between which
    other requests go on ([interleave]).

    The services behind the handlers (the token store, the reuse
    check) are not part of the sources.  What is proved of a handler
    is proved for any such services; the store defined below, built
    after the specification, only serves to run the handlers on
    examples. *)

From Stdlib Require Import String List Bool Arith ZArith Lia DecimalString.
Import ListNotations.
Open Scope string_scope.
Open Scope list_scope.


(** ** Values *)

(** Values of the option object handed to [res.cookie] and of values
    that are only tested for truthiness. *)
Inductive JsVal : Type :=
| JUndefined
| JNull
| JBool (b : bool)
| JNum (z : Z)
| JStr (s : string)
| JDoc.

(** JavaScript's [ToBoolean]; [JDoc] stands for any object. *)
Definition truthy (v : JsVal) : bool :=
  match v with
  | JUndefined | JNull => false
  | JBool b => b
  | JNum z => negb (z =? 0)%Z
  | JStr s => negb (s =? "")
  | JDoc => true
  end.

(** A JavaScript object used as a string-keyed map; property names are
    case sensitive. *)
Definition Obj (V : Type) : Type := list (string * V).

Fixpoint get {V : Type} (o : Obj V) (key : string) : option V :=
  match o with
  | [] => None
  | (k, v) :: o' => if k =? key then Some v else get o' key
  end.

(** A thrown (or rejected) value. *)
Definition Error : Type := string.

Module Payload.
(** The object signed into a token: [{ id, email, role }]. *)
Record t : Type := mk { id : string; email : string; role : string }.
End Payload.

Module User.
(** The document [getUserByEmail] resolves to. *)
Record t : Type :=
  mk { _id : string; id : string; email : string; role : string;
       password : string }.
End User.

Module Credentials.
(** What [loginSchema.parse] returns: [{ email, password }]. *)
Record t : Type := mk { email : string; password : string }.
End Credentials.

Record TokenSet : Type :=
  { accessToken : string; refreshToken : string }.

Record AppError : Type := { message : string; statusCode : nat }.

Record Request : Type :=
  { body : Obj string; cookies : Obj string; user : option Payload.t }.

(** [config/env.js], as far as the handlers read it: [env.env] (here
    [env_name]), [env.jwt.refreshExpirationDays] and
    [env.jwt.refresh_secret]. *)
Record Jwt : Type := { refreshExpirationDays : Z; refresh_secret : string }.
Record Env : Type := { env_name : string; jwt : Jwt }.

(** Modelled from the spec: [constants/index.js] is not part of the
    sources; these are the HTTP status codes the three names stand
    for (section 6 has 400 for a failed login and 401 for a failed
    refresh or logout). *)
Definition BAD_REQUEST : nat := 400.
Definition UN_AUTHORIZED : nat := 401.
Definition INTERNAL_SERVER : nat := 500.

(** ** Effects and calls *)

(** What a handler does synchronously to [res], [next] and the console. *)
Inductive Effect : Type :=
| console_log (label value : string)
| res_cookie (name value : string) (options : Obj JsVal)
| res_clearCookie (name : string)
| res_status_send (code : nat) (payload : Obj string)
| res_sendStatus (code : nat)
| next (err : AppError).

(** Calls into the imported modules, indexed by the type of the value
    they return or resolve to. *)
Inductive Call : Type -> Type :=
| loginSchema_parse (b : Obj string) : Call Credentials.t
| getUserByEmail (email projection : string) : Call (option User.t)
| checkPassword (password hash : string) : Call bool
| generateTokenSet (p : Payload.t) : Call TokenSet
| assignRefreshToken (uid token : string) : Call unit
| extractUser (token secret : string) : Call Payload.t
| refreshTokenReuseDetection (decodedUser : Payload.t) (token : string)
    : Call bool
| replaceRefreshTokenUser (uid old new : string) : Call JsVal
| removeRefreshTokenUser (uid token : string) : Call unit
| handleRefreshTokenError (error : Error) (req : Request) : Call unit.


(** ** Handler programs *)

Inductive Prog (A : Type) : Type :=
| Ret (a : A)
| Throw (e : Error)
| Emit (e : Effect) (k : Prog A)
| Vis (X : Type) (c : Call X) (k : Error + X -> Prog A).

Arguments Ret {A} a.
Arguments Throw {A} e.
Arguments Emit {A} e k.
Arguments Vis {A X} c k.

Fixpoint bind {A B : Type} (p : Prog A) (f : A -> Prog B) : Prog B :=
  match p with
  | Ret a => f a
  | Throw e => Throw e
  | Emit e k => Emit e (bind k f)
  | Vis c k => Vis c (fun r => bind (k r) f)
  end.

(** [try { p } catch (error) { h error }] *)
Fixpoint try_catch {A : Type} (p : Prog A) (h : Error -> Prog A) : Prog A :=
  match p with
  | Ret a => Ret a
  | Throw e => h e
  | Emit e k => Emit e (try_catch k h)
  | Vis c k => Vis c (fun r => try_catch (k r) h)
  end.

Definition call {X : Type} (c : Call X) : Prog X :=
  Vis c (fun r => match r with inl e => Throw e | inr x => Ret x end).

Definition emit (e : Effect) : Prog unit := Emit e (Ret tt).

(** A call made inside a [try] block: [h] is the [catch] clause for the
    call itself, [k] the rest of the block, with its own clause. *)
Definition try_call {A X : Type} (c : Call X) (h : Error -> Prog A)
    (k : X -> Prog A) : Prog A :=
  Vis c (fun r => match r with inl e => h e | inr x => k x end).

Declare Scope prog_scope.
Delimit Scope prog_scope with prog.
Notation "x <- c ;; k" := (bind c (fun x => k))
  (at level 61, c at next level, right associativity) : prog_scope.
Notation "c ;; k" := (bind c (fun _ => k))
  (at level 61, right associativity) : prog_scope.
Open Scope prog_scope.

Section Controller.

Variable env : Env.

(** The option object both handlers pass to [res.cookie]. *)
Definition cookie_options : Obj JsVal :=
  [ ("maxAge", JNum (refreshExpirationDays (jwt env) * 24 * 60 * 60 * 1000)%Z);
    ("secure", JBool (if env_name env =? "PRODUCTION" then true else false));
    ("httpOnly", JBool true);
    ("samesite", JStr "none") ].

Definition loginUser (req : Request) : Prog unit :=
  try_catch
    (c <- call (loginSchema_parse (body req)) ;;
     let email := Credentials.email c in
     let password := Credentials.password c in
     emit (console_log "email" email) ;;
     emit (console_log "password" password) ;;
     user <- call (getUserByEmail email "_id email role password") ;;
     match user with
     | None =>
         emit (next {| message := "User does not exist";
                       statusCode := BAD_REQUEST |})
     | Some user =>
         ok <- call (checkPassword password (User.password user)) ;;
         if negb ok then
           emit (next {| message := "Email or Password is incorrect";
                         statusCode := BAD_REQUEST |})
         else
           ts <- call (generateTokenSet
                         (Payload.mk (User.id user) (User.email user)
                                     (User.role user))) ;;
           call (assignRefreshToken (User._id user) (refreshToken ts)) ;;
           emit (res_cookie "refreshToken" (refreshToken ts) cookie_options) ;;
           emit (res_status_send 200
                   [("accessToken", accessToken ts);
                    ("message", "Logged In Successfully!")])
     end)
    (fun error =>
       emit (console_log "error" error) ;;
       emit (next {| message := "Something went wrong";
                     statusCode := INTERNAL_SERVER |})).

(** [!refreshToken] on the destructured cookie: absent or empty. *)
Definition presented (req : Request) : option string :=
  match get (cookies req) "refreshToken" with
  | Some t => if t =? "" then None else Some t
  | None => None
  end.

(** [req.user = decodedUser] *)
Definition set_user (req : Request) (u : Payload.t) : Request :=
  {| body := body req; cookies := cookies req; user := Some u |}.

(** [{ id: decodedUser.id, email: decodedUser.email, role: decodedUser.role }] *)
Definition payload_of (u : Payload.t) : Payload.t :=
  Payload.mk (Payload.id u) (Payload.email u) (Payload.role u).

(** The [try] block assigns [req.user] once [extractUser] has
    returned, and the [catch] clause hands [req] to
    [handleRefreshTokenError]: the clause is written once for the
    part of the block before the assignment and once for the part
    after it. *)
Definition refreshTokenSets (req : Request) : Prog unit :=
  match presented req with
  | None =>
      try_catch
        (emit (res_clearCookie "refreshToken") ;;
         emit (next {| message := "No refresh token found";
                       statusCode := UN_AUTHORIZED |}))
        (fun error => call (handleRefreshTokenError error req))
  | Some token =>
      try_call (extractUser token (refresh_secret (jwt env)))
        (fun error => call (handleRefreshTokenError error req))
        (fun decodedUser =>
           let req := set_user req decodedUser in
           try_catch
             (isHacker <- call (refreshTokenReuseDetection decodedUser token) ;;
              if isHacker then
                emit (next {| message := "Potential breach detected";
                              statusCode := UN_AUTHORIZED |})
              else
                tokenSet <- call (generateTokenSet (payload_of decodedUser)) ;;
                updatedRefreshToken <-
                  call (replaceRefreshTokenUser (Payload.id decodedUser) token
                                                (refreshToken tokenSet)) ;;
                if truthy updatedRefreshToken then
                  emit (res_cookie "refreshToken" (refreshToken tokenSet)
                                   cookie_options) ;;
                  emit (res_status_send 201
                          [("accessToken", accessToken tokenSet)])
                else Ret tt)
             (fun error => call (handleRefreshTokenError error req)))
  end.

Definition logOut (req : Request) : Prog unit :=
  try_catch
    (emit (res_clearCookie "refreshToken") ;;
     match presented req with
     | None =>
         emit (next {| message := "No Refresh Token Found";
                       statusCode := UN_AUTHORIZED |})
     | Some token =>
         decodedUser <- call (extractUser token (refresh_secret (jwt env))) ;;
         isHacker <- call (refreshTokenReuseDetection decodedUser token) ;;
         if isHacker then
           emit (next {| message := "Potential breach detected";
                         statusCode := UN_AUTHORIZED |})
         else
           call (removeRefreshTokenUser (Payload.id decodedUser) token) ;;
           emit (res_sendStatus 204)
     end)
    (fun error => call (handleRefreshTokenError error req)).

End Controller.

(** ** Running a handler *)

(** What is observed of a run: the handler's own effects, and its calls
    together with what the callee did to the [res] it was handed. *)
Inductive Event : Type :=
| Out (e : Effect)
| Did (X : Type) (c : Call X) (on_res : list Effect).

Arguments Did {X} c on_res.

(** The imported modules: every call is answered from a state [World]
    (database, clock), which it may change; it returns or throws. *)
Record Collaborators (World : Type) : Type :=
  { answer : forall X : Type,
      Call X -> World -> World * list Effect * (Error + X) }.

Arguments answer {World} _ {X} _ _.



Section Run.

Context {World : Type} (M : Collaborators World).

(** One request served from start to end with nothing in between. *)
Fixpoint run {A : Type} (p : Prog A) (w : World)
  : World * list Event * (Error + A) :=
  match p with
  | Ret a => (w, [], inr a)
  | Throw e => (w, [], inl e)
  | Emit e k =>
      let '(w', tr, r) := run k w in (w', Out e :: tr, r)
  | Vis c k =>
      let '(w1, es, x) := answer M c w in
      let '(w2, tr, r) := run (k x) w1 in
      (w2, Did c es :: tr, r)
  end.

Definition world_after {A : Type} (p : Prog A) (w : World) : World :=
  fst (fst (run p w)).

Definition trace {A : Type} (p : Prog A) (w : World) : list Event :=
  snd (fst (run p w)).




End Run.



(** Everything done to [res], [next] and the console, in order. *)
Definition effects (tr : list Event) : list Effect :=
  flat_map (fun ev => match ev with Out e => [e] | Did _ es => es end) tr.

(** Modelled from the spec: the error middleware behind [next] is not
    part of the sources; section 6 has a failed request answered with
    the status of the error. *)
Definition status_of (e : Effect) : option nat :=
  match e with
  | res_status_send code _ | res_sendStatus code => Some code
  | next err => Some (statusCode err)
  | _ => None
  end.

(** The status of the first answer among the effects, if any. *)
Fixpoint first_status (es : list Effect) : option nat :=
  match es with
  | [] => None
  | e :: es' =>
      match status_of e with Some c => Some c | None => first_status es' end
  end.

Definition response_status (tr : list Event) : option nat :=
  first_status (effects tr).

(** Whether an event answers the request: a response sent, [next]
    called, or the error handler of the refresh routes called. *)
Definition replies (e : Effect) : bool :=
  match e with
  | res_status_send _ _ | res_sendStatus _ | next _ => true
  | _ => false
  end.

Definition answers_request (ev : Event) : bool :=
  match ev with
  | Out e => replies e
  | Did c _ =>
      match c with handleRefreshTokenError _ _ => true | _ => false end
  end.

(** Whether an event is the handler calling [next]. *)
Definition calls_next (ev : Event) : bool :=
  match ev with
  | Out (next _) => true
  | _ => false
  end.

(** Whether an effect writes a submitted credential to the console. *)
Definition logs_credential (e : Effect) : bool :=
  match e with
  | console_log label _ => (label =? "email") || (label =? "password")
  | _ => false
  end.

(** Whether an event is one of the checks that authenticate a login. *)
Definition authentication_check (ev : Event) : bool :=
  match ev with
  | Did c _ =>
      match c with
      | getUserByEmail _ _ | checkPassword _ _ => true
      | _ => false
      end
  | Out _ => false
  end.

(** ** The cookie written by [res.cookie] *)

Inductive SameSiteMode : Type := Strict | Lax | NoRestriction.

(** Attributes of a [Set-Cookie] header. *)
Inductive Attribute : Type :=
| Max_Age (seconds : Z)
| Path (p : string)
| HttpOnly
| Secure
| SameSite (mode : SameSiteMode).

(** [res.cookie] belongs to Express, the framework the handlers run on,
    not to the sources.  It reads the properties [maxAge] (in
    milliseconds, written as [Max-Age] in whole seconds), [path]
    (default [/]), [httpOnly], [secure] and [sameSite] of the option
    object; a property under any other name is not looked at.
    [Expires], which depends on the time of the call, is left out. *)
Definition set_cookie_attributes (options : Obj JsVal) : list Attribute :=
  match get options "maxAge" with
  | Some (JNum ms) => [Max_Age (ms / 1000)]
  | _ => []
  end ++
  match get options "path" with
  | Some (JStr p) => [Path p]
  | _ => [Path "/"]
  end ++
  match get options "httpOnly" with
  | Some v => if truthy v then [HttpOnly] else []
  | None => []
  end ++
  match get options "secure" with
  | Some v => if truthy v then [Secure] else []
  | None => []
  end ++
  match get options "sameSite" with
  | Some (JBool true) => [SameSite Strict]
  | Some (JStr "strict") => [SameSite Strict]
  | Some (JStr "lax") => [SameSite Lax]
  | Some (JStr "none") => [SameSite NoRestriction]
  | _ => []
  end.

(** The attributes of the cookies a run sets under [name]. *)
Definition cookies_set (name : string) (tr : list Event)
  : list (string * list Attribute) :=
  flat_map
    (fun e =>
       match e with
       | res_cookie n v options =>
           if n =? name then [(v, set_cookie_attributes options)] else []
       | _ => []
       end)
    (effects tr).

Definition is_same_site (a : Attribute) : bool :=
  match a with SameSite _ => true | _ => false end.

(** ** A store to run the handlers on

    The functions of [services/auth.services.js] and [utils/auth.js]
    are not part of the sources.  The store of this section is one
    possible implementation, built after the specification; it is used
    to evaluate the handlers on examples, and nothing is claimed of
    the repository's own store through it. *)

Inductive Status : Type := active | rotated | revoked.

(** Modelled from the spec: the Refresh Token Record of section 3.
    The schema in the sources declares the [refresh_token] table with
    the columns [id], [refresh_token], [created_at], [updated_at] and
    [user_id] only: status, lineage and parent are the specification's,
    not the schema's. *)
Record RefreshTokenRecord : Type :=
  { token_id : string;
    lineage_id : nat;
    parent_token_id : option string;
    owner_id : string;
    status : Status;
    issued_at : nat;
    rotated_at : option nat }.

(** The database and the clock behind the imported modules. *)
Record Store : Type :=
  { records : list RefreshTokenRecord;
    users : list User.t;
    clock : nat }.

(** The signing, hashing and validation utilities ([utils/user.js],
    [validations/auth.validation.js]), which are not part of the
    sources: any functions of these types. *)
Record Utilities : Type :=
  { validate : Obj string -> Error + Credentials.t;
    verify : string -> string -> Error + Payload.t;
    mint : Payload.t -> nat -> TokenSet;
    matches : string -> string -> bool }.

Definition is_active (r : RefreshTokenRecord) : bool :=
  match status r with active => true | _ => false end.


Definition revoke (r : RefreshTokenRecord) : RefreshTokenRecord :=
  {| token_id := token_id r; lineage_id := lineage_id r;
     parent_token_id := parent_token_id r; owner_id := owner_id r;
     status := revoked;
     issued_at := issued_at r; rotated_at := rotated_at r |}.

Definition mark_rotated (now : nat) (r : RefreshTokenRecord)
  : RefreshTokenRecord :=
  {| token_id := token_id r; lineage_id := lineage_id r;
     parent_token_id := parent_token_id r; owner_id := owner_id r;
     status := rotated;
     issued_at := issued_at r; rotated_at := Some now |}.

Definition with_records (st : Store) (rs : list RefreshTokenRecord) : Store :=
  {| records := rs; users := users st; clock := clock st |}.

(** Modelled from the spec: the store's lookup-by-id (section 6). *)
Definition find_token (token : string) (rs : list RefreshTokenRecord)
  : option RefreshTokenRecord :=
  find (fun r => token_id r =? token) rs.

(** Modelled from the spec: [revokeLineage] of section 4.3, the store's
    bulk-revoke-by-lineage: every record of the lineage that is not yet
    revoked becomes revoked. *)
Definition revokeLineage (lineage : nat) (rs : list RefreshTokenRecord)
  : list RefreshTokenRecord :=
  map (fun r => if Nat.eqb (lineage_id r) lineage then revoke r else r) rs.

(** A lineage id no record carries yet. *)
Definition fresh_lineage (rs : list RefreshTokenRecord) : nat :=
  S (fold_right Nat.max 0 (map lineage_id rs)).

(** Modelled from the spec: [assignRefreshToken] is not part of the
    sources; section 4.1 has a login open a new lineage with an active
    root record. *)
Definition assign (uid token : string) (st : Store) : Store :=
  with_records st
    (records st ++
     [ {| token_id := token; lineage_id := fresh_lineage (records st);
          parent_token_id := None; owner_id := uid; status := active;
          issued_at := clock st; rotated_at := None |} ]).

(** Modelled from the spec: [refreshTokenReuseDetection] is not part of
    the sources; steps 1-2 of section 4.2: an unknown or revoked token
    fails, a rotated one is reuse and has its lineage revoked (and, by
    section 6, the cookie cleared), an active one passes.  [logOut]
    makes the same call, so here a logout with a revoked token fails
    too, where section 4.4 would have it succeed. *)
Definition detect (token : string) (st : Store)
  : Store * list Effect * (Error + bool) :=
  match find_token token (records st) with
  | None => (st, [], inl "UnknownToken")
  | Some r =>
      match status r with
      | revoked => (st, [], inl "TokenRevoked")
      | rotated =>
          (with_records st (revokeLineage (lineage_id r) (records st)),
           [res_clearCookie "refreshToken"], inr true)
      | active => (st, [], inr false)
      end
  end.

(** Modelled from the spec: the record step 2.c of section 4.2 creates
    when [r] has been rotated: active, in the lineage of [r], with [r]
    as its parent. *)
Definition successor (r : RefreshTokenRecord) (new : string) (now : nat)
  : RefreshTokenRecord :=
  {| token_id := new; lineage_id := lineage_id r;
     parent_token_id := Some (token_id r); owner_id := owner_id r;
     status := active; issued_at := now; rotated_at := None |}.

(** The condition of the transition to [rotated]: the record carries
    the token and is active. *)
Definition rotatable (token : string) (r : RefreshTokenRecord) : bool :=
  (token_id r =? token) && is_active r.

(** Modelled from the spec: [replaceRefreshTokenUser] is not part of
    the sources; steps 2.a and 2.c of section 4.2: the transition to
    [rotated] is conditioned on the record being active, and on its
    success the successor is inserted.  When no active record carries
    the token nothing is written and the result is [null], the falsy
    value [refreshTokenSets] tests the result for; what step 2.b asks
    for in that case is left to the caller. *)
Definition replace (old new : string) (st : Store) : Store * JsVal :=
  match find (rotatable old) (records st) with
  | None => (st, JNull)
  | Some r =>
      (with_records st
         (map (fun x => if rotatable old x then mark_rotated (clock st) x else x)
              (records st) ++
          [successor r new (clock st)]),
       JDoc)
  end.

(** Modelled from the spec: [removeRefreshTokenUser] is not part of the
    sources; section 4.4 has logout revoke the lineage of the record it
    found. *)
Definition remove (token : string) (st : Store) : Store :=
  match find_token token (records st) with
  | None => st
  | Some r => with_records st (revokeLineage (lineage_id r) (records st))
  end.

(** Modelled from the spec: [handleRefreshTokenError] is not part of
    the sources; sections 6 and 7 have every token error surface as
    401 with the cookie cleared. *)
Definition unauthorized : list Effect :=
  [ res_clearCookie "refreshToken";
    res_status_send UN_AUTHORIZED [("message", "Unauthorized")] ].

Definition tick (st : Store) : Store :=
  {| records := records st; users := users st; clock := S (clock st) |}.

(** Modelled from the spec: the imported modules over the store.
    [getUserByEmail] and [checkPassword] are the principal lookup and
    password check of section 6, [generateTokenSet] and [extractUser]
    its signing utility (a token is minted from the clock, which
    advances), the others the definitions above. *)
Definition store_answer (U : Utilities) (X : Type) (c : Call X) (st : Store)
  : Store * list Effect * (Error + X) :=
  match c in Call X return Store * list Effect * (Error + X) with
  | loginSchema_parse b => (st, [], validate U b)
  | getUserByEmail email _ =>
      (st, [], inr (find (fun u => User.email u =? email) (users st)))
  | checkPassword password hash => (st, [], inr (matches U password hash))
  | generateTokenSet p => (tick st, [], inr (mint U p (clock st)))
  | assignRefreshToken uid token => (assign uid token st, [], inr tt)
  | extractUser token secret => (st, [], verify U token secret)
  | refreshTokenReuseDetection _ token => detect token st
  | replaceRefreshTokenUser _ old new =>
      (fst (replace old new st), [], inr (snd (replace old new st)))
  | removeRefreshTokenUser _ token => (remove token st, [], inr tt)
  | handleRefreshTokenError _ _ => (st, unauthorized, inr tt)
  end.

Arguments store_answer U {X} c st.

Definition store (U : Utilities) : Collaborators Store :=
  {| answer := @store_answer U |}.

(** The store as one caller sees it when another caller rotates the
    same token between this caller's reuse check and its update. *)
Definition raced (U : Utilities) : Collaborators Store :=
  {| answer := fun X (c : Call X) (st : Store) =>
       match c in Call X return Store * list Effect * (Error + X) with
       | refreshTokenReuseDetection u token =>
           let '(st1, es, r) := detect token st in
           (fst (replace token (refreshToken (mint U u (clock st1))) st1),
            es, r)
       | c' => store_answer U c' st
       end |}.


(** ** A small deployment *)

Definition env0 : Env :=
  {| env_name := "PRODUCTION";
     jwt := {| refreshExpirationDays := 7; refresh_secret := "secret" |} |}.

Definition alice : User.t :=
  User.mk "a1" "a1" "alice@example.org" "voter" "hash:wonderland".

Definition decimal (n : nat) : string :=
  DecimalString.NilEmpty.string_of_uint (Nat.to_uint n).

(** Utilities for the examples: a body is valid when it has an [email]
    and a [password]; the tokens are [rt0], [rt1], ... and all verify
    as alice's; a password matches the hash made of it. *)
Definition utilities0 : Utilities :=
  {| validate := fun b =>
       match get b "email", get b "password" with
       | Some e, Some p => inr (Credentials.mk e p)
       | _, _ => inl "ZodError"
       end;
     verify := fun token _ =>
       if String.prefix "rt" token
       then inr (Payload.mk "a1" "alice@example.org" "voter")
       else inl "JsonWebTokenError";
     mint := fun _ n =>
       {| accessToken := String.append "at" (decimal n);
          refreshToken := String.append "rt" (decimal n) |};
     matches := fun password hash =>
       hash =? String.append "hash:" password |}.

Definition store0 : Store := {| records := []; users := [alice]; clock := 0 |}.

Definition login_request (email password : string) : Request :=
  {| body := [("email", email); ("password", password)];
     cookies := []; user := None |}.

Definition cookie_request (token : string) : Request :=
  {| body := []; cookies := [("refreshToken", token)]; user := None |}.

(** The store after alice has logged in: one lineage, root [rt0]. *)
Definition store1 : Store :=
  world_after (store utilities0)
    (loginUser env0 (login_request "alice@example.org" "wonderland")) store0.

(** The store after [rt0] has been rotated once. *)
Definition store2 : Store :=
  world_after (store utilities0)
    (refreshTokenSets env0 (cookie_request "rt0")) store1.

(** The errors a run hands to [next]. *)
Definition errors_passed (tr : list Event) : list AppError :=
  flat_map (fun e => match e with next err => [err] | _ => [] end)
           (effects tr).

(** A login request whose body has no [password]. *)
Definition malformed_login : Request :=
  {| body := [("email", "alice@example.org")]; cookies := []; user := None |}.



(** ** Counting what a run of a session handler does *)

(** How many times a run answers its request. *)
Definition answer_count (tr : list Event) : nat :=
  length (filter answers_request tr).

(** Whether an event is the handler setting a cookie. *)
Definition sets_cookie (ev : Event) : bool :=
  match ev with
  | Out (res_cookie _ _ _) => true
  | _ => false
  end.

(** Whether an event is a call into an imported module. *)
Definition calls_module (ev : Event) : bool :=
  match ev with
  | Did _ _ => true
  | Out _ => false
  end.

(** Whether an event is the password check. *)
Definition checks_password (ev : Event) : bool :=
  match ev with
  | Did c _ => match c with checkPassword _ _ => true | _ => false end
  | Out _ => false
  end.

(** Whether an event generates tokens or writes a refresh token to the
    store. *)
Definition issues_token (ev : Event) : bool :=
  match ev with
  | Did c _ =>
      match c with
      | generateTokenSet _ | assignRefreshToken _ _
      | replaceRefreshTokenUser _ _ _ => true
      | _ => false
      end
  | Out _ => false
  end.

(** The errors the handler itself hands to [next] in a run. *)
Definition handler_errors (tr : list Event) : list AppError :=
  flat_map (fun ev => match ev with
                      | Out (next err) => [err]
                      | _ => []
                      end) tr.

(** Whether an event is the handler sending a response with a body. *)
Definition sends_body (ev : Event) : bool :=
  match ev with
  | Out (res_status_send _ _) => true
  | _ => false
  end.

(** Whether an event is the handler sending the given status with
    [res.sendStatus]. *)
Definition sends_status (code : nat) (ev : Event) : bool :=
  match ev with
  | Out (res_sendStatus c) => Nat.eqb c code
  | _ => false
  end.



(** The store with its writes failing: [replaceRefreshTokenUser] and
    [removeRefreshTokenUser] reject and write nothing; every other
    call is answered as by [store]. *)
Definition write_fails (U : Utilities) : Collaborators Store :=
  {| answer := fun X (c : Call X) (st : Store) =>
       match c in Call X return Store * list Effect * (Error + X) with
       | replaceRefreshTokenUser _ _ _ => (st, [], inl "MongoNetworkError")
       | removeRefreshTokenUser _ _ => (st, [], inl "MongoNetworkError")
       | c' => store_answer U c' st
       end |}.

(** ** Registration and email verification

    [createUser] and [verifyEmail] of the same controller.  They call
    other imported functions and answer with other payloads than the
    session handlers, so they have their own calls, effects and
    programs, built the same way. *)

Module Account.

Module Registration.
(** What [registerSchema.parse] returns. *)
Record t : Type :=
  mk { firstName : string; lastName : string; email : string;
       role : string; password : string }.
End Registration.

Module NewUser.
(** The object [createUser] hands to [saveUser]. *)
Record t : Type :=
  mk { firstName : string; lastName : string; email : string;
       role : string; password : string; email_verify_token : string;
       token_send_at : string }.
End NewUser.

Module Doc.
(** The user document as far as [verifyEmail] reads it; the two
    nullable fields are nullable in the schema. *)
Record t : Type :=
  mk { _id : string; email_verify_token : option string;
       token_send_at : option string }.
End Doc.

Module Query.
(** What [verifyEmailSchema.parse] returns: [{ email, token }]. *)
Record t : Type := mk { email : string; token : string }.
End Query.

(** The data of the mail template and the job put on the mail queue. *)
Record MailData : Type := { name : string; url : string }.
Record Job : Type := { to : string; subject : string; html : string }.

Record Request : Type := { body : Obj string; query : Obj string }.

Inductive Effect : Type :=
| console_log (label value : string)
| res_status_send (code : nat) (message : string) (data : Obj string)
| res_sendStatus (code : nat)
| next (err : AppError).

Inductive Call : Type -> Type :=
| registerSchema_parse (b : Obj string) : Call Registration.t
| verifyEmailSchema_parse (q : Obj string) : Call Query.t
| getUserByEmail (email : string) (projection : option string)
    : Call (option Doc.t)
| generatePassword (plain : string) : Call string
| generateId : Call string
| new_Date_toISOString : Call string
| saveUser (u : NewUser.t) : Call (Obj string)
| renderEmailEjs (template : string) (data : MailData) : Call string
| emailQueue_add (queue : string) (job : Job) : Call unit
| checkTimeDifference (token_send_at : option string) : Call Z
| removeVerifyToken (uid : string) : Call unit
| removeEmailVerifyToken (uid token : string) : Call unit.

Inductive Script (A : Type) : Type :=
| Done (a : A)
| Raise (e : Error)
| Say (e : Effect) (k : Script A)
| Ask (X : Type) (c : Call X) (k : Error + X -> Script A).

Arguments Done {A} a.
Arguments Raise {A} e.
Arguments Say {A} e k.
Arguments Ask {A X} c k.

Fixpoint and_then {A B : Type} (p : Script A) (f : A -> Script B)
  : Script B :=
  match p with
  | Done a => f a
  | Raise e => Raise e
  | Say e k => Say e (and_then k f)
  | Ask c k => Ask c (fun r => and_then (k r) f)
  end.

(** [try { p } catch (error) { h error }], and also
    [p.catch((error) => h error)] for a promise chain [p]. *)
Fixpoint attempt {A : Type} (p : Script A) (h : Error -> Script A)
  : Script A :=
  match p with
  | Done a => Done a
  | Raise e => h e
  | Say e k => Say e (attempt k h)
  | Ask c k => Ask c (fun r => attempt (k r) h)
  end.

Definition ask {X : Type} (c : Call X) : Script X :=
  Ask c (fun r => match r with inl e => Raise e | inr x => Done x end).

Definition say (e : Effect) : Script unit := Say e (Done tt).

Declare Scope script_scope.
Delimit Scope script_scope with script.
Notation "x <- c ;; k" := (and_then c (fun x => k))
  (at level 61, c at next level, right associativity) : script_scope.
Notation "c ;; k" := (and_then c (fun _ => k))
  (at level 61, right associativity) : script_scope.

(** [token !== user.email_verify_token] for a string [token] and a
    field that is a string or [null]. *)
Definition differs (token : string) (field : option string) : bool :=
  match field with
  | Some t => negb (token =? t)
  | None => true
  end.

Section Controller.

(** [env.base_url] and the name exported by [jobs/email.queue.js]. *)
Variables (base_url emailQueueName : string).

(** [error instanceof Error] for a caught value. *)
Variable instanceof_Error : Error -> bool.

(** The promise chain on [saveUser(user)] is not awaited: the [try]
    block ends once it is set up, and what the chain throws goes to
    its own [.catch], not to the [catch] clause of the handler.
    In that clause, the block of the [if] declares its own [error]
    with [const] and reads it in the initialiser, before it is
    initialised: evaluating [formatError(error)] throws a
    ReferenceError, out of the handler. *)
Definition createUser (req : Request) : Script unit :=
  (attempt
     (r <- ask (registerSchema_parse (body req)) ;;
      let firstName := Registration.firstName r in
      let lastName := Registration.lastName r in
      let email := Registration.email r in
      let role := Registration.role r in
      let password := Registration.password r in
      isUser <- ask (getUserByEmail email None) ;;
      match isUser with
      | Some _ =>
          say (next {| message := "User already exists";
                       statusCode := BAD_REQUEST |})
      | None =>
          hashedPassword <- ask (generatePassword password) ;;
          id <- ask generateId ;;
          verify_token <- ask (generatePassword id) ;;
          let url :=
            String.append base_url
              (String.append "/verify/email/?email="
                 (String.append email
                    (String.append "&token=" verify_token))) in
          token_send_at <- ask new_Date_toISOString ;;
          let user :=
            NewUser.mk firstName lastName email role hashedPassword
                       verify_token token_send_at in
          attempt
            (savedUser <- ask (saveUser user) ;;
             html <- ask (renderEmailEjs "emails/verify-mail"
                            {| name := String.append firstName
                                         (String.append " " lastName);
                               url := url |}) ;;
             ask (emailQueue_add emailQueueName
                    {| to := email;
                       subject := "Verify your email address - Route Reserve";
                       html := html |}) ;;
             say (res_status_send 201 "Account Created Successfully!"
                                  savedUser))
            (fun error =>
               say (next {| message := "Something went wrong";
                            statusCode := INTERNAL_SERVER |}))
      end)
     (fun error =>
        if instanceof_Error error then
          Raise "ReferenceError: Cannot access 'error' before initialization"
        else
          say (next {| message := "Something went wrong";
                       statusCode := INTERNAL_SERVER |})))%script.

(** [user.token_send_at] is read before [user] is tested: when the
    lookup resolved to [null] the read throws a TypeError.  Past that
    read [user] is an object, so the test [if (user)] holds. *)
Definition verifyEmail (req : Request) : Script unit :=
  (attempt
     (q <- ask (verifyEmailSchema_parse (query req)) ;;
      let email := Query.email q in
      let token := Query.token q in
      user <- ask (getUserByEmail email
                     (Some "_id email email_verify_token token_send_at")) ;;
      match user with
      | None =>
          Raise "TypeError: Cannot read properties of null (reading 'token_send_at')"
      | Some user =>
          token_gap <- ask (checkTimeDifference (Doc.token_send_at user)) ;;
          if (86400000 <? token_gap)%Z then
            ask (removeVerifyToken (Doc._id user)) ;;
            say (next {| message := "Token expired";
                         statusCode := BAD_REQUEST |})
          else if differs token (Doc.email_verify_token user) then
            say (next {| message := "Invalid Token";
                         statusCode := BAD_REQUEST |})
          else
            ask (removeEmailVerifyToken (Doc._id user) token) ;;
            say (res_sendStatus 200)
      end)
     (fun error =>
        say (console_log "error" error) ;;
        say (next {| message := "Something went wrong";
                     statusCode := INTERNAL_SERVER |})))%script.

End Controller.

(** What is observed of a run: the handler's effects and its calls. *)
Inductive Event : Type :=
| Out (e : Effect)
| Did (X : Type) (c : Call X).

Arguments Did {X} c.

(** The imported modules behind the two handlers. *)
Record Services (World : Type) : Type :=
  { reply : forall X : Type, Call X -> World -> World * (Error + X) }.

Arguments reply {World} _ {X} _ _.

(** One request served from start to end; the promise chain of
    [createUser] runs right after the handler has set it up. *)
Fixpoint perform {World A : Type} (S : Services World) (p : Script A)
    (w : World) : World * list Event * (Error + A) :=
  match p with
  | Done a => (w, [], inr a)
  | Raise e => (w, [], inl e)
  | Say e k =>
      let '(w', tr, r) := perform S k w in (w', Out e :: tr, r)
  | Ask c k =>
      let '(w1, x) := reply S c w in
      let '(w2, tr, r) := perform S (k x) w1 in
      (w2, Did c :: tr, r)
  end.

Definition observed {World A : Type} (S : Services World) (p : Script A)
    (w : World) : list Event :=
  snd (fst (perform S p w)).

(** Whether an event answers the request. *)
Definition answers (ev : Event) : bool :=
  match ev with
  | Out (res_status_send _ _ _) | Out (res_sendStatus _) | Out (next _) => true
  | _ => false
  end.

Definition answer_count (tr : list Event) : nat :=
  length (filter answers tr).

(** The errors a run hands to [next]. *)
Definition errors_passed (tr : list Event) : list AppError :=
  flat_map (fun ev => match ev with Out (next err) => [err] | _ => [] end) tr.

(** Whether an event writes to the user store or the mail queue. *)
Definition writes (ev : Event) : bool :=
  match ev with
  | Did c =>
      match c with
      | saveUser _ | emailQueue_add _ _ | removeVerifyToken _
      | removeEmailVerifyToken _ _ => true
      | _ => false
      end
  | Out _ => false
  end.

(** Whether an event hashes a string. *)
Definition hashes (ev : Event) : bool :=
  match ev with
  | Did c => match c with generatePassword _ => true | _ => false end
  | Out _ => false
  end.

(** Services for the examples: one registered user, whose verification
    token was sent [gap] milliseconds ago; every body and query with
    the fields it needs is valid; the hash of [s] is [hash:s]; saving,
    rendering and queueing go through unless [mail_down]. *)
Definition services0 (gap : Z) (mail_down : bool) : Services unit :=
  {| reply := fun X (c : Call X) (w : unit) =>
       match c in Call X return unit * (Error + X) with
       | registerSchema_parse b =>
           (w, match get b "firstName", get b "lastName", get b "email",
                     get b "role", get b "password" with
               | Some f, Some l, Some e, Some r, Some p =>
                   inr (Registration.mk f l e r p)
               | _, _, _, _, _ => inl "ZodError"
               end)
       | verifyEmailSchema_parse q =>
           (w, match get q "email", get q "token" with
               | Some e, Some t => inr (Query.mk e t)
               | _, _ => inl "ZodError"
               end)
       | getUserByEmail email _ =>
           (w, inr (if email =? "carol@example.org"
                    then Some (Doc.mk "c1" (Some "hash:id1")
                                      (Some "2024-01-01T00:00:00.000Z"))
                    else None))
       | generatePassword plain => (w, inr (String.append "hash:" plain))
       | generateId => (w, inr "id2")
       | new_Date_toISOString => (w, inr "2024-01-02T00:00:00.000Z")
       | saveUser u => (w, inr [("email", NewUser.email u)])
       | renderEmailEjs _ data => (w, inr (url data))
       | emailQueue_add _ _ =>
           (w, if mail_down then inl "QueueError" else inr tt)
       | checkTimeDifference _ => (w, inr gap)
       | removeVerifyToken _ => (w, inr tt)
       | removeEmailVerifyToken _ _ => (w, inr tt)
       end |}.

Definition registration_request (email : string) : Request :=
  {| body := [("firstName", "Dave"); ("lastName", "Doe"); ("email", email);
              ("role", "voter"); ("password", "pw")];
     query := [] |}.

Definition verification_request (email token : string) : Request :=
  {| body := []; query := [("email", email); ("token", token)] |}.

End Account.

(** ** What the handlers do, whatever the imported modules are *)

Section Handlers.

Context {World : Type} (M : Collaborators World) (env : Env).

Local Abbreviation secret := (refresh_secret (jwt env)).

Lemma run_Emit {A : Type} (e : Effect) (k : Prog A) (w : World) :
  run M (Emit e k) w =
  (fst (fst (run M k w)), Out e :: snd (fst (run M k w)), snd (run M k w)).
Proof. cbn. destruct (run M k w) as [[w' tr] r]. reflexivity. Qed.

Lemma run_Vis {A X : Type} (c : Call X) (k : Error + X -> Prog A)
    (w w1 : World) (es : list Effect) (x : Error + X) :
  answer M c w = (w1, es, x) ->
  run M (Vis c k) w =
  (fst (fst (run M (k x) w1)), Did c es :: snd (fst (run M (k x) w1)),
   snd (run M (k x) w1)).
Proof.
  intros H. cbn. rewrite H.
  destruct (run M (k x) w1) as [[w' tr] r]. reflexivity.
Qed.

(** A malformed body: [loginSchema.parse] throws, the [catch] clause
    logs the error and answers with [INTERNAL_SERVER]. *)
Lemma loginUser_parse_throws (req : Request) (w w1 : World)
    (es : list Effect) (error : Error) :
  answer M (loginSchema_parse (body req)) w = (w1, es, inl error) ->
  run M (loginUser env req) w =
  (w1,
   [ Did (loginSchema_parse (body req)) es;
     Out (console_log "error" error);
     Out (next {| message := "Something went wrong";
                  statusCode := INTERNAL_SERVER |}) ],
   inr tt).
Proof.
  intros H. unfold loginUser. cbn. rewrite H. reflexivity.
Qed.

(** No user with that email. *)
Lemma loginUser_unknown_email (req : Request) (w w1 w2 : World)
    (es1 es2 : list Effect) (c : Credentials.t) :
  answer M (loginSchema_parse (body req)) w = (w1, es1, inr c) ->
  answer M (getUserByEmail (Credentials.email c) "_id email role password") w1
    = (w2, es2, inr None) ->
  run M (loginUser env req) w =
  (w2,
   [ Did (loginSchema_parse (body req)) es1;
     Out (console_log "email" (Credentials.email c));
     Out (console_log "password" (Credentials.password c));
     Did (getUserByEmail (Credentials.email c) "_id email role password") es2;
     Out (next {| message := "User does not exist";
                  statusCode := BAD_REQUEST |}) ],
   inr tt).
Proof.
  intros H1 H2. unfold loginUser. cbn. rewrite H1. cbn. rewrite H2.
  reflexivity.
Qed.

(** The user exists and the password does not match. *)
Lemma loginUser_wrong_password (req : Request) (w w1 w2 w3 : World)
    (es1 es2 es3 : list Effect) (c : Credentials.t) (u : User.t) :
  answer M (loginSchema_parse (body req)) w = (w1, es1, inr c) ->
  answer M (getUserByEmail (Credentials.email c) "_id email role password") w1
    = (w2, es2, inr (Some u)) ->
  answer M (checkPassword (Credentials.password c) (User.password u)) w2
    = (w3, es3, inr false) ->
  run M (loginUser env req) w =
  (w3,
   [ Did (loginSchema_parse (body req)) es1;
     Out (console_log "email" (Credentials.email c));
     Out (console_log "password" (Credentials.password c));
     Did (getUserByEmail (Credentials.email c) "_id email role password") es2;
     Did (checkPassword (Credentials.password c) (User.password u)) es3;
     Out (next {| message := "Email or Password is incorrect";
                  statusCode := BAD_REQUEST |}) ],
   inr tt).
Proof.
  intros H1 H2 H3. unfold loginUser. cbn. rewrite H1. cbn. rewrite H2.
  cbn. rewrite H3. reflexivity.
Qed.

(** The whole of a successful login. *)
Lemma loginUser_success (req : Request) (w w1 w2 w3 w4 w5 : World)
    (es1 es2 es3 es4 es5 : list Effect) (c : Credentials.t) (u : User.t)
    (ts : TokenSet) :
  answer M (loginSchema_parse (body req)) w = (w1, es1, inr c) ->
  answer M (getUserByEmail (Credentials.email c) "_id email role password") w1
    = (w2, es2, inr (Some u)) ->
  answer M (checkPassword (Credentials.password c) (User.password u)) w2
    = (w3, es3, inr true) ->
  answer M (generateTokenSet
              (Payload.mk (User.id u) (User.email u) (User.role u))) w3
    = (w4, es4, inr ts) ->
  answer M (assignRefreshToken (User._id u) (refreshToken ts)) w4
    = (w5, es5, inr tt) ->
  run M (loginUser env req) w =
  (w5,
   [ Did (loginSchema_parse (body req)) es1;
     Out (console_log "email" (Credentials.email c));
     Out (console_log "password" (Credentials.password c));
     Did (getUserByEmail (Credentials.email c) "_id email role password") es2;
     Did (checkPassword (Credentials.password c) (User.password u)) es3;
     Did (generateTokenSet
            (Payload.mk (User.id u) (User.email u) (User.role u))) es4;
     Did (assignRefreshToken (User._id u) (refreshToken ts)) es5;
     Out (res_cookie "refreshToken" (refreshToken ts) (cookie_options env));
     Out (res_status_send 200
            [("accessToken", accessToken ts);
             ("message", "Logged In Successfully!")]) ],
   inr tt).
Proof.
  intros H1 H2 H3 H4 H5. unfold loginUser. cbn. rewrite H1. cbn.
  rewrite H2. cbn. rewrite H3. cbn. rewrite H4. cbn. rewrite H5.
  reflexivity.
Qed.

Lemma refreshTokenSets_no_token (req : Request) (w : World) :
  presented req = None ->
  run M (refreshTokenSets env req) w =
  (w,
   [ Out (res_clearCookie "refreshToken");
     Out (next {| message := "No refresh token found";
                  statusCode := UN_AUTHORIZED |}) ],
   inr tt).
Proof. intros H. unfold refreshTokenSets. rewrite H. reflexivity. Qed.

(** Reuse detected: [next] is called with the breach error and
    nothing else is done by the handler. *)
Lemma refreshTokenSets_breach (req : Request) (token : string)
    (w w1 w2 : World) (es1 es2 : list Effect) (u : Payload.t) :
  presented req = Some token ->
  answer M (extractUser token secret) w = (w1, es1, inr u) ->
  answer M (refreshTokenReuseDetection u token) w1 = (w2, es2, inr true) ->
  run M (refreshTokenSets env req) w =
  (w2,
   [ Did (extractUser token secret) es1;
     Did (refreshTokenReuseDetection u token) es2;
     Out (next {| message := "Potential breach detected";
                  statusCode := UN_AUTHORIZED |}) ],
   inr tt).
Proof.
  intros H0 H1 H2. unfold refreshTokenSets. rewrite H0. cbn. rewrite H1. cbn. rewrite H2. reflexivity.
Qed.

(** The reuse check throws: the error handler is called with the
    request carrying the decoded user. *)
Lemma refreshTokenSets_detection_throws (req : Request) (token : string)
    (w w1 w2 w3 : World) (es1 es2 es3 : list Effect) (u : Payload.t)
    (error : Error) (r : Error + unit) :
  presented req = Some token ->
  answer M (extractUser token secret) w = (w1, es1, inr u) ->
  answer M (refreshTokenReuseDetection u token) w1 = (w2, es2, inl error) ->
  answer M (handleRefreshTokenError error (set_user req u)) w2 = (w3, es3, r) ->
  run M (refreshTokenSets env req) w =
  (w3,
   [ Did (extractUser token secret) es1;
     Did (refreshTokenReuseDetection u token) es2;
     Did (handleRefreshTokenError error (set_user req u)) es3 ],
   r).
Proof.
  intros H0 H1 H2 H3. unfold refreshTokenSets. rewrite H0. cbn. rewrite H1. cbn. rewrite H2. cbn. rewrite H3.
  destruct r; reflexivity.
Qed.

Lemma refreshTokenSets_extract_throws (req : Request) (token : string)
    (w w1 w2 : World) (es1 es2 : list Effect) (error : Error)
    (r : Error + unit) :
  presented req = Some token ->
  answer M (extractUser token secret) w = (w1, es1, inl error) ->
  answer M (handleRefreshTokenError error req) w1 = (w2, es2, r) ->
  run M (refreshTokenSets env req) w =
  (w2,
   [ Did (extractUser token secret) es1;
     Did (handleRefreshTokenError error req) es2 ],
   r).
Proof.
  intros H0 H1 H2. unfold refreshTokenSets. rewrite H0. cbn. rewrite H1. cbn. rewrite H2. destruct r; reflexivity.
Qed.

(** A rotation that goes through. *)
Lemma refreshTokenSets_success (req : Request) (token : string)
    (w w1 w2 w3 w4 : World) (es1 es2 es3 es4 : list Effect)
    (u : Payload.t) (ts : TokenSet) (v : JsVal) :
  presented req = Some token ->
  answer M (extractUser token secret) w = (w1, es1, inr u) ->
  answer M (refreshTokenReuseDetection u token) w1 = (w2, es2, inr false) ->
  answer M (generateTokenSet (payload_of u)) w2 = (w3, es3, inr ts) ->
  answer M (replaceRefreshTokenUser (Payload.id u) token (refreshToken ts)) w3
    = (w4, es4, inr v) ->
  truthy v = true ->
  run M (refreshTokenSets env req) w =
  (w4,
   [ Did (extractUser token secret) es1;
     Did (refreshTokenReuseDetection u token) es2;
     Did (generateTokenSet (payload_of u)) es3;
     Did (replaceRefreshTokenUser (Payload.id u) token (refreshToken ts)) es4;
     Out (res_cookie "refreshToken" (refreshToken ts) (cookie_options env));
     Out (res_status_send 201 [("accessToken", accessToken ts)]) ],
   inr tt).
Proof.
  intros H0 H1 H2 H3 H4 Hv. unfold refreshTokenSets. rewrite H0. cbn. rewrite H1. cbn. rewrite H2. cbn.
  fold (payload_of u). rewrite H3. cbn. rewrite H4. cbn. rewrite Hv.
  reflexivity.
Qed.

Lemma logOut_success (req : Request) (token : string)
    (w w1 w2 w3 : World) (es1 es2 es3 : list Effect) (u : Payload.t) :
  presented req = Some token ->
  answer M (extractUser token secret) w = (w1, es1, inr u) ->
  answer M (refreshTokenReuseDetection u token) w1 = (w2, es2, inr false) ->
  answer M (removeRefreshTokenUser (Payload.id u) token) w2
    = (w3, es3, inr tt) ->
  run M (logOut env req) w =
  (w3,
   [ Out (res_clearCookie "refreshToken");
     Did (extractUser token secret) es1;
     Did (refreshTokenReuseDetection u token) es2;
     Did (removeRefreshTokenUser (Payload.id u) token) es3;
     Out (res_sendStatus 204) ],
   inr tt).
Proof.
  intros H0 H1 H2 H3. unfold logOut. cbn. rewrite H0. cbn. rewrite H1. cbn. rewrite H2. cbn. rewrite H3.
  reflexivity.
Qed.

Lemma logOut_breach (req : Request) (token : string)
    (w w1 w2 : World) (es1 es2 : list Effect) (u : Payload.t) :
  presented req = Some token ->
  answer M (extractUser token secret) w = (w1, es1, inr u) ->
  answer M (refreshTokenReuseDetection u token) w1 = (w2, es2, inr true) ->
  run M (logOut env req) w =
  (w2,
   [ Out (res_clearCookie "refreshToken");
     Did (extractUser token secret) es1;
     Did (refreshTokenReuseDetection u token) es2;
     Out (next {| message := "Potential breach detected";
                  statusCode := UN_AUTHORIZED |}) ],
   inr tt).
Proof.
  intros H0 H1 H2. unfold logOut. cbn. rewrite H0. cbn. rewrite H1. cbn. rewrite H2. reflexivity.
Qed.

Lemma logOut_detection_throws (req : Request) (token : string)
    (w w1 w2 w3 : World) (es1 es2 es3 : list Effect) (u : Payload.t)
    (error : Error) (r : Error + unit) :
  presented req = Some token ->
  answer M (extractUser token secret) w = (w1, es1, inr u) ->
  answer M (refreshTokenReuseDetection u token) w1 = (w2, es2, inl error) ->
  answer M (handleRefreshTokenError error req) w2 = (w3, es3, r) ->
  run M (logOut env req) w =
  (w3,
   [ Out (res_clearCookie "refreshToken");
     Did (extractUser token secret) es1;
     Did (refreshTokenReuseDetection u token) es2;
     Did (handleRefreshTokenError error req) es3 ],
   r).
Proof.
  intros H0 H1 H2 H3. unfold logOut. cbn. rewrite H0. cbn. rewrite H1. cbn. rewrite H2. cbn. rewrite H3.
  destruct r; reflexivity.
Qed.

Lemma logOut_extract_throws (req : Request) (token : string)
    (w w1 w2 : World) (es1 es2 : list Effect) (error : Error)
    (r : Error + unit) :
  presented req = Some token ->
  answer M (extractUser token secret) w = (w1, es1, inl error) ->
  answer M (handleRefreshTokenError error req) w1 = (w2, es2, r) ->
  run M (logOut env req) w =
  (w2,
   [ Out (res_clearCookie "refreshToken");
     Did (extractUser token secret) es1;
     Did (handleRefreshTokenError error req) es2 ],
   r).
Proof.
  intros H0 H1 H2. unfold logOut. cbn. rewrite H0. cbn. rewrite H1. cbn. rewrite H2. destruct r; reflexivity.
Qed.

(** A rotation whose store update resolves to a falsy value: the
    handler falls off the end of its [try] block. *)
Lemma refreshTokenSets_falsy_update (req : Request) (token : string)
    (w w1 w2 w3 w4 : World) (es1 es2 es3 es4 : list Effect)
    (u : Payload.t) (ts : TokenSet) (v : JsVal) :
  presented req = Some token ->
  answer M (extractUser token secret) w = (w1, es1, inr u) ->
  answer M (refreshTokenReuseDetection u token) w1 = (w2, es2, inr false) ->
  answer M (generateTokenSet (payload_of u)) w2 = (w3, es3, inr ts) ->
  answer M (replaceRefreshTokenUser (Payload.id u) token (refreshToken ts)) w3
    = (w4, es4, inr v) ->
  truthy v = false ->
  run M (refreshTokenSets env req) w =
  (w4,
   [ Did (extractUser token secret) es1;
     Did (refreshTokenReuseDetection u token) es2;
     Did (generateTokenSet (payload_of u)) es3;
     Did (replaceRefreshTokenUser (Payload.id u) token (refreshToken ts)) es4 ],
   inr tt).
Proof.
  intros H0 H1 H2 H3 H4 Hv. unfold refreshTokenSets. rewrite H0. cbn.
  rewrite H1. cbn. rewrite H2. cbn. rewrite H3. cbn. rewrite H4. cbn.
  rewrite Hv. reflexivity.
Qed.

(** Once the reuse check has answered false, the handler never calls
    [next], whatever the later calls answer: the reuse path is not
    taken. *)
Lemma refreshTokenSets_passed_check_no_next (req : Request) (token : string)
    (w w1 w2 : World) (es1 es2 : list Effect) (u : Payload.t) :
  presented req = Some token ->
  answer M (extractUser token secret) w = (w1, es1, inr u) ->
  answer M (refreshTokenReuseDetection u token) w1 = (w2, es2, inr false) ->
  existsb calls_next (trace M (refreshTokenSets env req) w) = false.
Proof.
  intros H0 H1 H2. unfold trace, refreshTokenSets. rewrite H0. cbn.
  rewrite H1. cbn. rewrite H2. cbn.
  destruct (answer M (generateTokenSet (payload_of u)) w2)
    as [[w3 es3] [e|ts]]; cbn.
  - destruct (answer M (handleRefreshTokenError e (set_user req u)) w3)
      as [[w4 es4] [e'|[]]]; reflexivity.
  - destruct (answer M (replaceRefreshTokenUser (Payload.id u) token
                          (refreshToken ts)) w3) as [[w4 es4] [e|v]]; cbn.
    + destruct (answer M (handleRefreshTokenError e (set_user req u)) w4)
        as [[w5 es5] [e'|[]]]; reflexivity.
    + destruct (truthy v); reflexivity.
Qed.

(** C8, as amended: when the body passes [loginSchema.parse], the
    parsed email and the plaintext password are written to the console
    right after the parse and before the first authentication check
    (the user lookup), whatever the lookup and the password check
    answer afterwards. *)
Theorem loginUser_logs_credentials_first (req : Request) (w w1 : World)
    (es1 : list Effect) (c : Credentials.t) :
  answer M (loginSchema_parse (body req)) w = (w1, es1, inr c) ->
  exists es2 tail,
    trace M (loginUser env req) w =
    Did (loginSchema_parse (body req)) es1
    :: Out (console_log "email" (Credentials.email c))
    :: Out (console_log "password" (Credentials.password c))
    :: Did (getUserByEmail (Credentials.email c) "_id email role password") es2
    :: tail
    /\ existsb authentication_check
         [ Did (loginSchema_parse (body req)) es1;
           Out (console_log "email" (Credentials.email c));
           Out (console_log "password" (Credentials.password c)) ] = false.
Proof.
  intros H1. unfold trace, loginUser. cbn. rewrite H1. cbn.
  destruct (answer M (getUserByEmail (Credentials.email c)
                        "_id email role password") w1) as [[w2 es2] r].
  match goal with
  | |- context [run M ?p w2] => destruct (run M p w2) as [[w3 tr] r']
  end.
  exists es2, tr. split; reflexivity.
Qed.

(** C9: when the token passes the reuse check and
    [replaceRefreshTokenUser] resolves to a falsy value without
    throwing, the run consists of the handler's four calls and nothing
    else: no response is sent, [next] is not called, the error handler
    is not called. *)
Theorem refreshTokenSets_no_reply_on_falsy_update (req : Request)
    (token : string) (w w1 w2 w3 w4 : World) (es1 es2 es3 es4 : list Effect)
    (u : Payload.t) (ts : TokenSet) (v : JsVal) :
  presented req = Some token ->
  answer M (extractUser token secret) w = (w1, es1, inr u) ->
  answer M (refreshTokenReuseDetection u token) w1 = (w2, es2, inr false) ->
  answer M (generateTokenSet (payload_of u)) w2 = (w3, es3, inr ts) ->
  answer M (replaceRefreshTokenUser (Payload.id u) token (refreshToken ts)) w3
    = (w4, es4, inr v) ->
  truthy v = false ->
  trace M (refreshTokenSets env req) w =
    [ Did (extractUser token secret) es1;
      Did (refreshTokenReuseDetection u token) es2;
      Did (generateTokenSet (payload_of u)) es3;
      Did (replaceRefreshTokenUser (Payload.id u) token (refreshToken ts)) es4 ]
  /\ existsb answers_request (trace M (refreshTokenSets env req) w) = false
  /\ effects (trace M (refreshTokenSets env req) w) = es1 ++ es2 ++ es3 ++ es4
  /\ snd (run M (refreshTokenSets env req) w) = inr tt.
Proof.
  intros H0 H1 H2 H3 H4 Hv. unfold trace.
  erewrite refreshTokenSets_falsy_update by eassumption. cbn.
  repeat split. now rewrite app_nil_r.
Qed.

(** C10: the first thing a run of [logOut] does is clear the
    [refreshToken] cookie, whatever the request and whatever the
    imported modules answer; the runs that end in 401 because no token
    was presented or a breach was detected are the clearing followed by
    the call of [next]. *)
Theorem logOut_clears_cookie_first (req : Request) (w : World) :
  (exists tail,
     trace M (logOut env req) w = Out (res_clearCookie "refreshToken") :: tail)
  /\ match presented req with
     | None =>
         trace M (logOut env req) w =
         [ Out (res_clearCookie "refreshToken");
           Out (next {| message := "No Refresh Token Found";
                        statusCode := UN_AUTHORIZED |}) ]
     | Some token =>
         match answer M (extractUser token secret) w with
         | (w1, es1, inr u) =>
             match answer M (refreshTokenReuseDetection u token) w1 with
             | (_, es2, inr true) =>
                 trace M (logOut env req) w =
                 [ Out (res_clearCookie "refreshToken");
                   Did (extractUser token secret) es1;
                   Did (refreshTokenReuseDetection u token) es2;
                   Out (next {| message := "Potential breach detected";
                                statusCode := UN_AUTHORIZED |}) ]
             | _ => True
             end
         | _ => True
         end
     end.
Proof.
  split.
  - unfold trace, logOut. cbn.
    match goal with
    | |- context [run M ?p w] => destruct (run M p w) as [[w' tr] r]
    end.
    exists tr. reflexivity.
  - destruct (presented req) as [token|] eqn:H0.
    + destruct (answer M (extractUser token secret) w) as [[w1 es1] [e|u]] eqn:H1;
        [exact I|].
      destruct (answer M (refreshTokenReuseDetection u token) w1)
        as [[w2 es2] [e|[|]]] eqn:H2; try exact I.
      unfold trace. erewrite logOut_breach by eassumption. reflexivity.
    + unfold trace, logOut. cbn. rewrite H0. reflexivity.
Qed.

End Handlers.

(** ** The handlers on the small deployment *)

Lemma loginUser_logs_credentials_first_witness :
  answer (store utilities0)
    (loginSchema_parse (body (login_request "bob@example.org" "hunter2")))
    store0
  = (store0, [], inr (Credentials.mk "bob@example.org" "hunter2"))
  /\ exists es2 tail,
       trace (store utilities0)
         (loginUser env0 (login_request "bob@example.org" "hunter2")) store0 =
       Did (loginSchema_parse (body (login_request "bob@example.org" "hunter2")))
           []
       :: Out (console_log "email" "bob@example.org")
       :: Out (console_log "password" "hunter2")
       :: Did (getUserByEmail "bob@example.org" "_id email role password") es2
       :: tail
       /\ existsb authentication_check
            [ Did (loginSchema_parse
                     (body (login_request "bob@example.org" "hunter2"))) [];
              Out (console_log "email" "bob@example.org");
              Out (console_log "password" "hunter2") ] = false.
Proof.
  split.
  - reflexivity.
  - apply (@loginUser_logs_credentials_first Store (store utilities0) env0
             (login_request "bob@example.org" "hunter2") store0 store0 []
             (Credentials.mk "bob@example.org" "hunter2")).
    reflexivity.
Defined.

(** C8, as stated, fails: a body without [password] does not pass
    [loginSchema.parse], and the submitted email is not logged. *)
Lemma loginUser_malformed_logs_no_credential :
  get (body malformed_login) "email" = Some "alice@example.org"
  /\ effects (trace (store utilities0) (loginUser env0 malformed_login) store0)
     = [ console_log "error" "ZodError";
         next {| message := "Something went wrong";
                 statusCode := INTERNAL_SERVER |} ]
  /\ existsb logs_credential
       (effects (trace (store utilities0) (loginUser env0 malformed_login)
                       store0)) = false.
Proof. repeat split. Qed.

Lemma refreshTokenSets_no_reply_on_falsy_update_witness :
  presented (cookie_request "rt0") = Some "rt0"
  /\ existsb answers_request
       (trace (raced utilities0) (refreshTokenSets env0 (cookie_request "rt0"))
              store1) = false
  /\ response_status
       (trace (raced utilities0) (refreshTokenSets env0 (cookie_request "rt0"))
              store1) = None.
Proof.
  pose proof
    (@refreshTokenSets_no_reply_on_falsy_update Store (raced utilities0) env0
       (cookie_request "rt0") "rt0" store1 store1
       (fst (fst (answer (raced utilities0)
                    (refreshTokenReuseDetection
                       (Payload.mk "a1" "alice@example.org" "voter") "rt0")
                    store1)))
       (tick (fst (fst (answer (raced utilities0)
                    (refreshTokenReuseDetection
                       (Payload.mk "a1" "alice@example.org" "voter") "rt0")
                    store1))))
       (tick (fst (fst (answer (raced utilities0)
                    (refreshTokenReuseDetection
                       (Payload.mk "a1" "alice@example.org" "voter") "rt0")
                    store1))))
       [] [] [] []
       (Payload.mk "a1" "alice@example.org" "voter")
       {| accessToken := "at1"; refreshToken := "rt1" |}
       JNull
       eq_refl eq_refl eq_refl eq_refl eq_refl eq_refl) as [Ht [Hn [He _]]].
  split; [reflexivity|]. split; [exact Hn|].
  unfold response_status. rewrite He. reflexivity.
Defined.

(** C6: a login with a malformed body is answered with
    [INTERNAL_SERVER], not with [BAD_REQUEST]; wrong credentials are
    answered with [BAD_REQUEST]. *)
Theorem loginUser_malformed_body_is_500 :
  validate utilities0 (body malformed_login) = inl "ZodError"
  /\ response_status
       (trace (store utilities0) (loginUser env0 malformed_login) store0)
     = Some 500
  /\ response_status
       (trace (store utilities0)
              (loginUser env0 (login_request "bob@example.org" "hunter2"))
              store0)
     = Some 400
  /\ response_status
       (trace (store utilities0)
              (loginUser env0 (login_request "alice@example.org" "hunter2"))
              store0)
     = Some 400.
Proof. repeat split. Qed.

(** C7: the error handed to [next] for an unknown email is not the one
    handed to it for a wrong password. *)
Theorem loginUser_reveals_unknown_email :
  errors_passed
    (trace (store utilities0)
           (loginUser env0 (login_request "bob@example.org" "hunter2")) store0)
  = [ {| message := "User does not exist"; statusCode := BAD_REQUEST |} ]
  /\ errors_passed
       (trace (store utilities0)
              (loginUser env0 (login_request "alice@example.org" "hunter2"))
              store0)
     = [ {| message := "Email or Password is incorrect";
            statusCode := BAD_REQUEST |} ]
  /\ errors_passed
       (trace (store utilities0)
              (loginUser env0 (login_request "bob@example.org" "hunter2"))
              store0)
     <> errors_passed
          (trace (store utilities0)
                 (loginUser env0 (login_request "alice@example.org" "hunter2"))
                 store0).
Proof. repeat split. cbn. discriminate. Qed.

(** C5: the option object carries the SameSite setting under the name
    [samesite], which [res.cookie] does not read: the cookie set by a
    successful login and by a successful refresh has [HttpOnly],
    [Secure] in production and [Max-Age] equal to the lifetime in
    seconds, and no [SameSite] attribute. *)
Theorem refresh_cookie_lacks_SameSite (env : Env) :
  get (cookie_options env) "sameSite" = None
  /\ get (cookie_options env) "samesite" = Some (JStr "none")
  /\ set_cookie_attributes (cookie_options env) =
     [ Max_Age (refreshExpirationDays (jwt env) * 86400); Path "/"; HttpOnly ]
     ++ (if env_name env =? "PRODUCTION" then [Secure] else [])
  /\ existsb is_same_site (set_cookie_attributes (cookie_options env)) = false
  /\ cookies_set "refreshToken"
       (trace (store utilities0)
              (loginUser env0 (login_request "alice@example.org" "wonderland"))
              store0)
     = [ ("rt0", [Max_Age 604800; Path "/"; HttpOnly; Secure]) ]
  /\ cookies_set "refreshToken"
       (trace (store utilities0) (refreshTokenSets env0 (cookie_request "rt0"))
              store1)
     = [ ("rt1", [Max_Age 604800; Path "/"; HttpOnly; Secure]) ].
Proof.
  assert (Hms : ((refreshExpirationDays (jwt env) * 24 * 60 * 60 * 1000) / 1000
                 = refreshExpirationDays (jwt env) * 86400)%Z).
  { replace (refreshExpirationDays (jwt env) * 24 * 60 * 60 * 1000)%Z
      with ((refreshExpirationDays (jwt env) * 86400) * 1000)%Z by lia.
    apply Z.div_mul. lia. }
  assert (Hattrs : set_cookie_attributes (cookie_options env) =
     [ Max_Age (refreshExpirationDays (jwt env) * 86400); Path "/"; HttpOnly ]
     ++ (if env_name env =? "PRODUCTION" then [Secure] else [])).
  { unfold set_cookie_attributes, cookie_options. cbn [get String.eqb Ascii.eqb Bool.eqb].
    cbn. rewrite Hms. destruct (env_name env =? "PRODUCTION"); reflexivity. }
  split; [reflexivity|]. split; [reflexivity|]. split; [exact Hattrs|].
  split.
  - rewrite Hattrs. destruct (env_name env =? "PRODUCTION"); reflexivity.
  - split; reflexivity.
Qed.

(** ** More about the session handlers, whatever the imported modules are *)

Ltac split_answers :=
  repeat (cbn;
          match goal with
          | |- context [answer ?M ?c ?w] =>
              destruct (answer M c w) as [[? ?] [?|?]]
          | |- context [match ?x with Some _ => _ | None => _ end] =>
              destruct x
          | |- context [if negb ?b then _ else _] => destruct b
          | |- context [if truthy ?v then _ else _] => destruct (truthy v)
          | |- context [if ?b then _ else _] => destruct b
          end).

Section SessionHandlers.

Context {World : Type} (M : Collaborators World) (env : Env).

(** X1: whatever the request and whatever the imported modules
    answer, a run of [loginUser] answers the request exactly once:
    it sends the 200 response or calls [next], never both, never
    neither. *)
Theorem loginUser_answers_once (req : Request) (w : World) :
  answer_count (trace M (loginUser env req) w) = 1.
Proof. unfold trace, loginUser. split_answers; reflexivity. Qed.

(** X2: a run of [logOut] answers the request exactly once: it sends
    204, calls [next], or calls [handleRefreshTokenError]. *)
Theorem logOut_answers_once (req : Request) (w : World) :
  answer_count (trace M (logOut env req) w) = 1.
Proof.
  unfold trace, logOut. cbn. destruct (presented req); split_answers;
    reflexivity.
Qed.

(** X3: a run of [refreshTokenSets] answers the request exactly once,
    except when it consists of the four calls [extractUser],
    [refreshTokenReuseDetection], [generateTokenSet] and
    [replaceRefreshTokenUser] and nothing else: the only run without
    an answer is the one that falls through after the store update. *)
Theorem refreshTokenSets_silent_only_after_update (req : Request)
    (w : World) :
  answer_count (trace M (refreshTokenSets env req) w) = 1
  \/ exists token u ts es1 es2 es3 es4,
       presented req = Some token
       /\ trace M (refreshTokenSets env req) w =
          [ Did (extractUser token (refresh_secret (jwt env))) es1;
            Did (refreshTokenReuseDetection u token) es2;
            Did (generateTokenSet (payload_of u)) es3;
            Did (replaceRefreshTokenUser (Payload.id u) token
                   (refreshToken ts)) es4 ].
Proof.
  unfold trace, refreshTokenSets.
  destruct (presented req) as [token|]; [|left; reflexivity].
  cbn.
  destruct (answer M (extractUser token (refresh_secret (jwt env))) w)
    as [[w1 es1] [e|u]]; cbn.
  { destruct (answer M (handleRefreshTokenError e req) w1) as [[? ?] [?|?]];
      left; reflexivity. }
  destruct (answer M (refreshTokenReuseDetection u token) w1)
    as [[w2 es2] [e|[|]]]; cbn.
  { destruct (answer M (handleRefreshTokenError e (set_user req u)) w2)
      as [[? ?] [?|?]]; left; reflexivity. }
  { left; reflexivity. }
  destruct (answer M (generateTokenSet (payload_of u)) w2)
    as [[w3 es3] [e|ts]]; cbn.
  { destruct (answer M (handleRefreshTokenError e (set_user req u)) w3)
      as [[? ?] [?|?]]; left; reflexivity. }
  destruct (answer M (replaceRefreshTokenUser (Payload.id u) token
                        (refreshToken ts)) w3) as [[w4 es4] [e|v]]; cbn.
  { destruct (answer M (handleRefreshTokenError e (set_user req u)) w4)
      as [[? ?] [?|?]]; left; reflexivity. }
  destruct (truthy v); cbn; [left; reflexivity|].
  right. exists token, u, ts, es1, es2, es3, es4. split; reflexivity.
Qed.

(** X4: [loginUser] sets the cookie and sends a body only in the run
    that goes through all five calls, and then the cookie holds the
    refresh token that was handed to [assignRefreshToken] and the body
    the access token of the same token set; in every other run no
    cookie is set and no body is sent. *)
Theorem loginUser_cookie_only_with_200 (req : Request) (w : World) :
  (existsb sets_cookie (trace M (loginUser env req) w) = false
   /\ existsb sends_body (trace M (loginUser env req) w) = false)
  \/ exists c u ts es1 es2 es3 es4 es5,
       trace M (loginUser env req) w =
       [ Did (loginSchema_parse (body req)) es1;
         Out (console_log "email" (Credentials.email c));
         Out (console_log "password" (Credentials.password c));
         Did (getUserByEmail (Credentials.email c) "_id email role password")
             es2;
         Did (checkPassword (Credentials.password c) (User.password u)) es3;
         Did (generateTokenSet
                (Payload.mk (User.id u) (User.email u) (User.role u))) es4;
         Did (assignRefreshToken (User._id u) (refreshToken ts)) es5;
         Out (res_cookie "refreshToken" (refreshToken ts) (cookie_options env));
         Out (res_status_send 200
                [("accessToken", accessToken ts);
                 ("message", "Logged In Successfully!")]) ].
Proof.
  unfold trace, loginUser. cbn.
  destruct (answer M (loginSchema_parse (body req)) w)
    as [[w1 es1] [e|c]]; cbn; [left; split; reflexivity|].
  destruct (answer M (getUserByEmail (Credentials.email c)
                        "_id email role password") w1)
    as [[w2 es2] [e|[u|]]]; cbn; try (left; split; reflexivity).
  destruct (answer M (checkPassword (Credentials.password c)
                        (User.password u)) w2)
    as [[w3 es3] [e|[|]]]; cbn; try (left; split; reflexivity).
  destruct (answer M (generateTokenSet
                        (Payload.mk (User.id u) (User.email u) (User.role u)))
                   w3)
    as [[w4 es4] [e|ts]]; cbn; [left; split; reflexivity|].
  destruct (answer M (assignRefreshToken (User._id u) (refreshToken ts)) w4)
    as [[w5 es5] [e|[]]]; cbn; [left; split; reflexivity|].
  right. exists c, u, ts, es1, es2, es3, es4, es5. reflexivity.
Qed.

(** X5: [refreshTokenSets] sets a cookie and sends a body only in the
    run in which the store update resolved to a truthy value; the
    token handed to the store as the old one is the presented one,
    the cookie holds the token handed to the store as the new one, and
    the body the access token of the same token set. *)
Theorem refreshTokenSets_cookie_only_with_201 (req : Request) (w : World) :
  (existsb sets_cookie (trace M (refreshTokenSets env req) w) = false
   /\ existsb sends_body (trace M (refreshTokenSets env req) w) = false)
  \/ exists token u ts es1 es2 es3 es4,
       presented req = Some token
       /\ trace M (refreshTokenSets env req) w =
          [ Did (extractUser token (refresh_secret (jwt env))) es1;
            Did (refreshTokenReuseDetection u token) es2;
            Did (generateTokenSet (payload_of u)) es3;
            Did (replaceRefreshTokenUser (Payload.id u) token
                   (refreshToken ts)) es4;
            Out (res_cookie "refreshToken" (refreshToken ts)
                   (cookie_options env));
            Out (res_status_send 201 [("accessToken", accessToken ts)]) ].
Proof.
  unfold trace, refreshTokenSets.
  destruct (presented req) as [token|]; [|left; split; reflexivity].
  cbn.
  destruct (answer M (extractUser token (refresh_secret (jwt env))) w)
    as [[w1 es1] [e|u]]; cbn.
  { destruct (answer M (handleRefreshTokenError e req) w1) as [[? ?] [?|?]];
      left; split; reflexivity. }
  destruct (answer M (refreshTokenReuseDetection u token) w1)
    as [[w2 es2] [e|[|]]]; cbn.
  { destruct (answer M (handleRefreshTokenError e (set_user req u)) w2)
      as [[? ?] [?|?]]; left; split; reflexivity. }
  { left; split; reflexivity. }
  destruct (answer M (generateTokenSet (payload_of u)) w2)
    as [[w3 es3] [e|ts]]; cbn.
  { destruct (answer M (handleRefreshTokenError e (set_user req u)) w3)
      as [[? ?] [?|?]]; left; split; reflexivity. }
  destruct (answer M (replaceRefreshTokenUser (Payload.id u) token
                        (refreshToken ts)) w3) as [[w4 es4] [e|v]]; cbn.
  { destruct (answer M (handleRefreshTokenError e (set_user req u)) w4)
      as [[? ?] [?|?]]; left; split; reflexivity. }
  destruct (truthy v); cbn; [|left; split; reflexivity].
  right. exists token, u, ts, es1, es2, es3, es4. split; reflexivity.
Qed.

(** X6: [logOut] sends 204 only in the run in which the reuse check
    answered and [removeRefreshTokenUser], called with the decoded
    user's id and the presented token, resolved; in every other run
    no 204 is sent. *)
Theorem logOut_204_only_after_removal (req : Request) (w : World) :
  existsb (sends_status 204) (trace M (logOut env req) w) = false
  \/ exists token u es1 es2 es3,
       presented req = Some token
       /\ trace M (logOut env req) w =
          [ Out (res_clearCookie "refreshToken");
            Did (extractUser token (refresh_secret (jwt env))) es1;
            Did (refreshTokenReuseDetection u token) es2;
            Did (removeRefreshTokenUser (Payload.id u) token) es3;
            Out (res_sendStatus 204) ].
Proof.
  unfold trace, logOut. cbn.
  destruct (presented req) as [token|]; [|left; reflexivity].
  cbn.
  destruct (answer M (extractUser token (refresh_secret (jwt env))) w)
    as [[w1 es1] [e|u]]; cbn.
  { destruct (answer M (handleRefreshTokenError e req) w1) as [[? ?] [?|?]];
      left; reflexivity. }
  destruct (answer M (refreshTokenReuseDetection u token) w1)
    as [[w2 es2] [e|[|]]]; cbn.
  { destruct (answer M (handleRefreshTokenError e req) w2)
      as [[? ?] [?|?]]; left; reflexivity. }
  { left; reflexivity. }
  destruct (answer M (removeRefreshTokenUser (Payload.id u) token) w2)
    as [[w3 es3] [e|[]]]; cbn.
  { destruct (answer M (handleRefreshTokenError e req) w3)
      as [[? ?] [?|?]]; left; reflexivity. }
  right. exists token, u, es1, es2, es3. split; reflexivity.
Qed.

(** X7: the errors the three handlers hand to [next] themselves.
    [loginUser] hands over at most one error, one of three: the two
    400 errors for the credentials and the 500 error of its [catch]
    clause.  [refreshTokenSets] and [logOut] hand over at most one,
    the missing-token or the breach error, both 401: what the imported
    modules throw in these two handlers never reaches [next]. *)
Theorem session_handler_errors (req : Request) (w : World) :
  In (handler_errors (trace M (loginUser env req) w))
     [ [];
       [ {| message := "User does not exist"; statusCode := BAD_REQUEST |} ];
       [ {| message := "Email or Password is incorrect";
            statusCode := BAD_REQUEST |} ];
       [ {| message := "Something went wrong";
            statusCode := INTERNAL_SERVER |} ] ]
  /\ In (handler_errors (trace M (refreshTokenSets env req) w))
        [ [];
          [ {| message := "No refresh token found";
               statusCode := UN_AUTHORIZED |} ];
          [ {| message := "Potential breach detected";
               statusCode := UN_AUTHORIZED |} ] ]
  /\ In (handler_errors (trace M (logOut env req) w))
        [ [];
          [ {| message := "No Refresh Token Found";
               statusCode := UN_AUTHORIZED |} ];
          [ {| message := "Potential breach detected";
               statusCode := UN_AUTHORIZED |} ] ].
Proof.
  split; [|split].
  - unfold trace, loginUser. split_answers; cbn; tauto.
  - unfold trace, refreshTokenSets. destruct (presented req);
      split_answers; cbn; tauto.
  - unfold trace, logOut. cbn. destruct (presented req);
      split_answers; cbn; tauto.
Qed.

(** X8: a [refreshToken] cookie that is absent or the empty string is
    no token for either handler: the cookie is cleared, [next] gets
    the 401 error, no imported module is called and the state behind
    them is left as it was. *)
Theorem empty_cookie_is_no_cookie (req : Request) (w : World) :
  get (cookies req) "refreshToken" = None
  \/ get (cookies req) "refreshToken" = Some "" ->
  run M (refreshTokenSets env req) w =
    (w,
     [ Out (res_clearCookie "refreshToken");
       Out (next {| message := "No refresh token found";
                    statusCode := UN_AUTHORIZED |}) ],
     inr tt)
  /\ run M (logOut env req) w =
     (w,
      [ Out (res_clearCookie "refreshToken");
        Out (next {| message := "No Refresh Token Found";
                     statusCode := UN_AUTHORIZED |}) ],
      inr tt).
Proof.
  intros H.
  assert (Hp : presented req = None).
  { unfold presented. destruct H as [-> | ->]; reflexivity. }
  unfold refreshTokenSets, logOut. cbn. rewrite Hp. split; reflexivity.
Qed.

(** X9: for an email no user has, [loginUser] stops at the lookup: the
    password is not checked, no token is generated or stored, no
    cookie is set, and the state is as the lookup left it. *)
Theorem loginUser_unknown_email_stops_at_lookup (req : Request)
    (w w1 w2 : World) (es1 es2 : list Effect) (c : Credentials.t) :
  answer M (loginSchema_parse (body req)) w = (w1, es1, inr c) ->
  answer M (getUserByEmail (Credentials.email c) "_id email role password") w1
    = (w2, es2, inr None) ->
  existsb checks_password (trace M (loginUser env req) w) = false
  /\ existsb issues_token (trace M (loginUser env req) w) = false
  /\ existsb sets_cookie (trace M (loginUser env req) w) = false
  /\ world_after M (loginUser env req) w = w2.
Proof.
  intros H1 H2. unfold trace, world_after.
  rewrite (loginUser_unknown_email M env req w w1 w2 es1 es2 c H1 H2).
  repeat split.
Qed.

(** X10: when the password check answers false, [loginUser] generates
    no token, writes none to the store and sets no cookie; the state
    is as the password check left it. *)
Theorem loginUser_wrong_password_issues_nothing (req : Request)
    (w w1 w2 w3 : World) (es1 es2 es3 : list Effect) (c : Credentials.t)
    (u : User.t) :
  answer M (loginSchema_parse (body req)) w = (w1, es1, inr c) ->
  answer M (getUserByEmail (Credentials.email c) "_id email role password") w1
    = (w2, es2, inr (Some u)) ->
  answer M (checkPassword (Credentials.password c) (User.password u)) w2
    = (w3, es3, inr false) ->
  existsb issues_token (trace M (loginUser env req) w) = false
  /\ existsb sets_cookie (trace M (loginUser env req) w) = false
  /\ existsb sends_body (trace M (loginUser env req) w) = false
  /\ world_after M (loginUser env req) w = w3.
Proof.
  intros H1 H2 H3. unfold trace, world_after.
  rewrite (loginUser_wrong_password M env req w w1 w2 w3 es1 es2 es3 c u
             H1 H2 H3).
  repeat split.
Qed.

(** X22: when [replaceRefreshTokenUser] rejects, [refreshTokenSets]
    hands the rejection as it is to [handleRefreshTokenError], with the
    request carrying the decoded user as [req.user]; no cookie is set,
    no body is sent and [next] is not called. *)
Theorem refreshTokenSets_update_rejects (req : Request) (token : string)
    (w w1 w2 w3 w4 w5 : World) (es1 es2 es3 es4 es5 : list Effect)
    (u : Payload.t) (ts : TokenSet) (error : Error) (r : Error + unit) :
  presented req = Some token ->
  answer M (extractUser token (refresh_secret (jwt env))) w
    = (w1, es1, inr u) ->
  answer M (refreshTokenReuseDetection u token) w1 = (w2, es2, inr false) ->
  answer M (generateTokenSet (payload_of u)) w2 = (w3, es3, inr ts) ->
  answer M (replaceRefreshTokenUser (Payload.id u) token (refreshToken ts)) w3
    = (w4, es4, inl error) ->
  answer M (handleRefreshTokenError error (set_user req u)) w4
    = (w5, es5, r) ->
  run M (refreshTokenSets env req) w =
    (w5,
     [ Did (extractUser token (refresh_secret (jwt env))) es1;
       Did (refreshTokenReuseDetection u token) es2;
       Did (generateTokenSet (payload_of u)) es3;
       Did (replaceRefreshTokenUser (Payload.id u) token (refreshToken ts))
           es4;
       Did (handleRefreshTokenError error (set_user req u)) es5 ],
     r)
  /\ user (set_user req u) = Some u.
Proof.
  intros H0 H1 H2 H3 H4 H5. split; [|reflexivity].
  unfold refreshTokenSets. rewrite H0. cbn. rewrite H1. cbn. rewrite H2.
  cbn. rewrite H3. cbn. rewrite H4. cbn. rewrite H5.
  destruct r; reflexivity.
Qed.

(** X23: when [removeRefreshTokenUser] rejects, [logOut] hands the
    rejection as it is to [handleRefreshTokenError], with the request
    as it came; no 204 is sent, and the cookie has been cleared
    all the same. *)
Theorem logOut_removal_rejects (req : Request) (token : string)
    (w w1 w2 w3 w4 : World) (es1 es2 es3 es4 : list Effect)
    (u : Payload.t) (error : Error) (r : Error + unit) :
  presented req = Some token ->
  answer M (extractUser token (refresh_secret (jwt env))) w
    = (w1, es1, inr u) ->
  answer M (refreshTokenReuseDetection u token) w1 = (w2, es2, inr false) ->
  answer M (removeRefreshTokenUser (Payload.id u) token) w2
    = (w3, es3, inl error) ->
  answer M (handleRefreshTokenError error req) w3 = (w4, es4, r) ->
  run M (logOut env req) w =
    (w4,
     [ Out (res_clearCookie "refreshToken");
       Did (extractUser token (refresh_secret (jwt env))) es1;
       Did (refreshTokenReuseDetection u token) es2;
       Did (removeRefreshTokenUser (Payload.id u) token) es3;
       Did (handleRefreshTokenError error req) es4 ],
     r).
Proof.
  intros H0 H1 H2 H3 H4.
  unfold logOut. cbn. rewrite H0. cbn. rewrite H1. cbn. rewrite H2.
  cbn. rewrite H3. cbn. rewrite H4. destruct r; reflexivity.
Qed.

End SessionHandlers.

Lemma empty_cookie_is_no_cookie_witness :
  get (cookies (cookie_request "")) "refreshToken" = Some ""
  /\ run (store utilities0) (logOut env0 (cookie_request "")) store2 =
     (store2,
      [ Out (res_clearCookie "refreshToken");
        Out (next {| message := "No Refresh Token Found";
                     statusCode := UN_AUTHORIZED |}) ],
      inr tt).
Proof.
  split; [reflexivity|].
  exact (proj2 (@empty_cookie_is_no_cookie Store (store utilities0) env0
                  (cookie_request "") store2 (or_intror eq_refl))).
Defined.

Lemma loginUser_unknown_email_stops_at_lookup_witness :
  find (fun u => User.email u =? "bob@example.org") (users store0) = None
  /\ existsb checks_password
       (trace (store utilities0)
          (loginUser env0 (login_request "bob@example.org" "hunter2")) store0)
     = false.
Proof.
  split; [reflexivity|].
  exact (proj1
    (@loginUser_unknown_email_stops_at_lookup Store (store utilities0) env0
       (login_request "bob@example.org" "hunter2") store0 store0 store0 [] []
       (Credentials.mk "bob@example.org" "hunter2") eq_refl eq_refl)).
Defined.

Lemma loginUser_wrong_password_issues_nothing_witness :
  matches utilities0 "hunter2" (User.password alice) = false
  /\ existsb issues_token
       (trace (store utilities0)
          (loginUser env0 (login_request "alice@example.org" "hunter2"))
          store0)
     = false.
Proof.
  split; [reflexivity|].
  exact (proj1
    (@loginUser_wrong_password_issues_nothing Store (store utilities0) env0
       (login_request "alice@example.org" "hunter2") store0 store0 store0
       store0 [] [] [] (Credentials.mk "alice@example.org" "hunter2") alice
       eq_refl eq_refl eq_refl)).
Defined.

(** ** Registration and email verification, whatever the services are *)

Ltac split_replies :=
  repeat (cbn;
          match goal with
          | |- context [Account.reply ?S ?c ?w] =>
              destruct (Account.reply S c w) as [? [?|?]]
          | |- context [match ?x with Some _ => _ | None => _ end] =>
              destruct x
          | |- context [if ?b then _ else _] => destruct b
          end).

Section AccountHandlers.

Context {World : Type} (S : Account.Services World).
Context (base_url emailQueueName : string) (instanceof_Error : Error -> bool).

(** X11: [verifyEmail] for an email no user has: the handler reads
    [user.token_send_at] of [null], the TypeError is caught, logged
    and answered with 500; nothing is written. *)
Theorem verifyEmail_unknown_email_is_500 (req : Account.Request)
    (w w1 w2 : World) (q : Account.Query.t) :
  Account.reply S (Account.verifyEmailSchema_parse (Account.query req)) w
    = (w1, inr q) ->
  Account.reply S
    (Account.getUserByEmail (Account.Query.email q)
       (Some "_id email email_verify_token token_send_at")) w1
    = (w2, inr None) ->
  Account.perform S (Account.verifyEmail req) w =
  (w2,
   [ Account.Did (Account.verifyEmailSchema_parse (Account.query req));
     Account.Did
       (Account.getUserByEmail (Account.Query.email q)
          (Some "_id email email_verify_token token_send_at"));
     Account.Out
       (Account.console_log "error"
          "TypeError: Cannot read properties of null (reading 'token_send_at')");
     Account.Out
       (Account.next {| message := "Something went wrong";
                        statusCode := INTERNAL_SERVER |}) ],
   inr tt).
Proof.
  intros H1 H2. unfold Account.verifyEmail. cbn. rewrite H1. cbn.
  rewrite H2. reflexivity.
Qed.


(** X13: when at most 86400000 ms have passed (exactly 86400000
    included) and the presented token is not the stored one, or none
    is stored, [verifyEmail] answers 400 "Invalid Token" and writes
    nothing. *)
Theorem verifyEmail_wrong_token (req : Account.Request) (w w1 w2 w3 : World)
    (q : Account.Query.t) (user : Account.Doc.t) (gap : Z) :
  Account.reply S (Account.verifyEmailSchema_parse (Account.query req)) w
    = (w1, inr q) ->
  Account.reply S
    (Account.getUserByEmail (Account.Query.email q)
       (Some "_id email email_verify_token token_send_at")) w1
    = (w2, inr (Some user)) ->
  Account.reply S
    (Account.checkTimeDifference (Account.Doc.token_send_at user)) w2
    = (w3, inr gap) ->
  (gap <= 86400000)%Z ->
  Account.Doc.email_verify_token user <> Some (Account.Query.token q) ->
  Account.perform S (Account.verifyEmail req) w =
  (w3,
   [ Account.Did (Account.verifyEmailSchema_parse (Account.query req));
     Account.Did
       (Account.getUserByEmail (Account.Query.email q)
          (Some "_id email email_verify_token token_send_at"));
     Account.Did
       (Account.checkTimeDifference (Account.Doc.token_send_at user));
     Account.Out
       (Account.next {| message := "Invalid Token";
                        statusCode := BAD_REQUEST |}) ],
   inr tt).
Proof.
  intros H1 H2 H3 Hgap Hne. unfold Account.verifyEmail. cbn. rewrite H1. cbn.
  rewrite H2. cbn. rewrite H3. cbn.
  assert (Hl : (86400000 <? gap)%Z = false) by (apply Z.ltb_ge; exact Hgap).
  rewrite Hl.
  assert (Hd : Account.differs (Account.Query.token q)
                 (Account.Doc.email_verify_token user) = true).
  { unfold Account.differs.
    destruct (Account.Doc.email_verify_token user) as [t|]; [|reflexivity].
    destruct (String.eqb_spec (Account.Query.token q) t) as [E|E];
      [|reflexivity].
    subst t. contradiction Hne. reflexivity. }
  rewrite Hd. reflexivity.
Qed.


(** X15: whatever the request and whatever the services answer, a run
    of [verifyEmail] answers the request exactly once and does not
    throw. *)
Theorem verifyEmail_answers_once (req : Account.Request) (w : World) :
  Account.answer_count (Account.observed S (Account.verifyEmail req) w) = 1
  /\ snd (Account.perform S (Account.verifyEmail req) w) = inr tt.
Proof.
  unfold Account.observed, Account.verifyEmail.
  split; split_replies; try reflexivity;
    match goal with u : unit |- _ => destruct u end; reflexivity.
Qed.

(** X16: [createUser] for an email that already has a user answers
    400 "User already exists" right after the lookup: nothing is
    hashed, saved, rendered or queued. *)
Theorem createUser_existing_user (req : Account.Request) (w w1 w2 : World)
    (r : Account.Registration.t) (d : Account.Doc.t) :
  Account.reply S (Account.registerSchema_parse (Account.body req)) w
    = (w1, inr r) ->
  Account.reply S
    (Account.getUserByEmail (Account.Registration.email r) None) w1
    = (w2, inr (Some d)) ->
  Account.perform S
    (Account.createUser base_url emailQueueName instanceof_Error req) w =
  (w2,
   [ Account.Did (Account.registerSchema_parse (Account.body req));
     Account.Did
       (Account.getUserByEmail (Account.Registration.email r) None);
     Account.Out
       (Account.next {| message := "User already exists";
                        statusCode := BAD_REQUEST |}) ],
   inr tt).
Proof.
  intros H1 H2. unfold Account.createUser. cbn. rewrite H1. cbn.
  rewrite H2. reflexivity.
Qed.

(** X17: when [registerSchema.parse] throws an [Error], [createUser]
    answers nothing: its [catch] clause throws a ReferenceError before
    it reaches [next], and the handler ends with that error. *)
Theorem createUser_validation_error_no_answer (req : Account.Request)
    (w w1 : World) (error : Error) :
  Account.reply S (Account.registerSchema_parse (Account.body req)) w
    = (w1, inl error) ->
  instanceof_Error error = true ->
  Account.perform S
    (Account.createUser base_url emailQueueName instanceof_Error req) w =
  (w1,
   [ Account.Did (Account.registerSchema_parse (Account.body req)) ],
   inl "ReferenceError: Cannot access 'error' before initialization").
Proof.
  intros H1 H2. unfold Account.createUser. cbn. rewrite H1. cbn.
  rewrite H2. reflexivity.
Qed.

(** X18: the errors [createUser] hands to [next], whatever the request
    and the services: at most one, and it is "User already exists"
    with 400 or "Something went wrong" with 500.  No error built from
    a validation error ever reaches [next]. *)
Theorem createUser_errors (req : Account.Request) (w : World) :
  In (Account.errors_passed
        (Account.observed S
           (Account.createUser base_url emailQueueName instanceof_Error req)
           w))
     [ [];
       [ {| message := "User already exists"; statusCode := BAD_REQUEST |} ];
       [ {| message := "Something went wrong";
            statusCode := INTERNAL_SERVER |} ] ].
Proof.
  unfold Account.observed, Account.createUser.
  split_replies; cbn; tauto.
Qed.

(** X19: a run of [createUser] answers the request once, or not at all
    and then the handler has thrown the ReferenceError of its [catch]
    clause. *)
Theorem createUser_answers_at_most_once (req : Account.Request) (w : World) :
  (Account.answer_count
     (Account.observed S
        (Account.createUser base_url emailQueueName instanceof_Error req) w)
   = 1
   /\ snd (Account.perform S
             (Account.createUser base_url emailQueueName instanceof_Error req)
             w) = inr tt)
  \/ (Account.answer_count
        (Account.observed S
           (Account.createUser base_url emailQueueName instanceof_Error req)
           w)
      = 0
      /\ snd (Account.perform S
                (Account.createUser base_url emailQueueName instanceof_Error
                   req) w)
         = inl "ReferenceError: Cannot access 'error' before initialization").
Proof.
  unfold Account.observed, Account.createUser.
  split_replies;
    repeat match goal with u : unit |- _ => destruct u end;
    cbn; (left; split; reflexivity) || (right; split; reflexivity).
Qed.

(** X20: a registration that goes through.  The user handed to
    [saveUser] carries the hash of the password, never the password,
    and as its verification token the hash of the generated id; the
    link handed to the mail template is
    [base_url/verify/email/?email=<email>&token=<that token>]; the
    mail is addressed to the registered email; 201 with the saved user
    is sent after the mail has been queued. *)
Theorem createUser_success (req : Account.Request)
    (w w1 w2 w3 w4 w5 w6 w7 w8 w9 : World) (r : Account.Registration.t)
    (hashedPassword id verify_token token_send_at html : string)
    (savedUser : Obj string) :
  let email := Account.Registration.email r in
  let user :=
    Account.NewUser.mk (Account.Registration.firstName r)
      (Account.Registration.lastName r) email (Account.Registration.role r)
      hashedPassword verify_token token_send_at in
  let data :=
    {| Account.name :=
         String.append (Account.Registration.firstName r)
           (String.append " " (Account.Registration.lastName r));
       Account.url :=
         String.append base_url
           (String.append "/verify/email/?email="
              (String.append email (String.append "&token=" verify_token))) |}
  in
  let job :=
    {| Account.to := email;
       Account.subject := "Verify your email address - Route Reserve";
       Account.html := html |} in
  Account.reply S (Account.registerSchema_parse (Account.body req)) w
    = (w1, inr r) ->
  Account.reply S (Account.getUserByEmail email None) w1 = (w2, inr None) ->
  Account.reply S
    (Account.generatePassword (Account.Registration.password r)) w2
    = (w3, inr hashedPassword) ->
  Account.reply S Account.generateId w3 = (w4, inr id) ->
  Account.reply S (Account.generatePassword id) w4 = (w5, inr verify_token) ->
  Account.reply S Account.new_Date_toISOString w5 = (w6, inr token_send_at) ->
  Account.reply S (Account.saveUser user) w6 = (w7, inr savedUser) ->
  Account.reply S (Account.renderEmailEjs "emails/verify-mail" data) w7
    = (w8, inr html) ->
  Account.reply S (Account.emailQueue_add emailQueueName job) w8
    = (w9, inr tt) ->
  Account.perform S
    (Account.createUser base_url emailQueueName instanceof_Error req) w =
  (w9,
   [ Account.Did (Account.registerSchema_parse (Account.body req));
     Account.Did (Account.getUserByEmail email None);
     Account.Did (Account.generatePassword (Account.Registration.password r));
     Account.Did Account.generateId;
     Account.Did (Account.generatePassword id);
     Account.Did Account.new_Date_toISOString;
     Account.Did (Account.saveUser user);
     Account.Did (Account.renderEmailEjs "emails/verify-mail" data);
     Account.Did (Account.emailQueue_add emailQueueName job);
     Account.Out
       (Account.res_status_send 201 "Account Created Successfully!"
          savedUser) ],
   inr tt).
Proof.
  intros email user data job H1 H2 H3 H4 H5 H6 H7 H8 H9.
  subst email user data job.
  unfold Account.createUser. cbn -[String.append]. rewrite H1.
  cbn -[String.append]. rewrite H2. cbn -[String.append]. rewrite H3.
  cbn -[String.append]. rewrite H4. cbn -[String.append]. rewrite H5.
  cbn -[String.append]. rewrite H6. cbn -[String.append]. rewrite H7.
  cbn -[String.append]. rewrite H8. cbn -[String.append]. rewrite H9.
  reflexivity.
Qed.

(** X21: when the user has been saved and the mail cannot be queued,
    [createUser] answers 500 and sends no 201: the account exists, the
    client is told that something went wrong.  The rejection goes to
    the [.catch] of the promise chain; the [catch] clause of the
    handler does not see it, whatever the rejection is. *)
Theorem createUser_saved_but_mail_fails (req : Account.Request)
    (w w1 w2 w3 w4 w5 w6 w7 w8 w9 : World) (r : Account.Registration.t)
    (hashedPassword id verify_token token_send_at html : string)
    (savedUser : Obj string) (error : Error) :
  let email := Account.Registration.email r in
  let user :=
    Account.NewUser.mk (Account.Registration.firstName r)
      (Account.Registration.lastName r) email (Account.Registration.role r)
      hashedPassword verify_token token_send_at in
  let data :=
    {| Account.name :=
         String.append (Account.Registration.firstName r)
           (String.append " " (Account.Registration.lastName r));
       Account.url :=
         String.append base_url
           (String.append "/verify/email/?email="
              (String.append email (String.append "&token=" verify_token))) |}
  in
  let job :=
    {| Account.to := email;
       Account.subject := "Verify your email address - Route Reserve";
       Account.html := html |} in
  Account.reply S (Account.registerSchema_parse (Account.body req)) w
    = (w1, inr r) ->
  Account.reply S (Account.getUserByEmail email None) w1 = (w2, inr None) ->
  Account.reply S
    (Account.generatePassword (Account.Registration.password r)) w2
    = (w3, inr hashedPassword) ->
  Account.reply S Account.generateId w3 = (w4, inr id) ->
  Account.reply S (Account.generatePassword id) w4 = (w5, inr verify_token) ->
  Account.reply S Account.new_Date_toISOString w5 = (w6, inr token_send_at) ->
  Account.reply S (Account.saveUser user) w6 = (w7, inr savedUser) ->
  Account.reply S (Account.renderEmailEjs "emails/verify-mail" data) w7
    = (w8, inr html) ->
  Account.reply S (Account.emailQueue_add emailQueueName job) w8
    = (w9, inl error) ->
  Account.perform S
    (Account.createUser base_url emailQueueName instanceof_Error req) w =
  (w9,
   [ Account.Did (Account.registerSchema_parse (Account.body req));
     Account.Did (Account.getUserByEmail email None);
     Account.Did (Account.generatePassword (Account.Registration.password r));
     Account.Did Account.generateId;
     Account.Did (Account.generatePassword id);
     Account.Did Account.new_Date_toISOString;
     Account.Did (Account.saveUser user);
     Account.Did (Account.renderEmailEjs "emails/verify-mail" data);
     Account.Did (Account.emailQueue_add emailQueueName job);
     Account.Out
       (Account.next {| message := "Something went wrong";
                        statusCode := INTERNAL_SERVER |}) ],
   inr tt).
Proof.
  intros email user data job H1 H2 H3 H4 H5 H6 H7 H8 H9.
  subst email user data job.
  unfold Account.createUser. cbn -[String.append]. rewrite H1.
  cbn -[String.append]. rewrite H2. cbn -[String.append]. rewrite H3.
  cbn -[String.append]. rewrite H4. cbn -[String.append]. rewrite H5.
  cbn -[String.append]. rewrite H6. cbn -[String.append]. rewrite H7.
  cbn -[String.append]. rewrite H8. cbn -[String.append]. rewrite H9.
  reflexivity.
Qed.

End AccountHandlers.

(** ** Registration and email verification on small examples *)

Lemma verifyEmail_unknown_email_is_500_witness :
  Account.errors_passed
    (Account.observed (Account.services0 0 false)
       (Account.verifyEmail
          (Account.verification_request "nobody@example.org" "hash:id1")) tt)
  = [ {| message := "Something went wrong"; statusCode := INTERNAL_SERVER |} ].
Proof.
  exact (f_equal (fun x => Account.errors_passed (snd (fst x)))
    (@verifyEmail_unknown_email_is_500 unit (Account.services0 0 false)
       (Account.verification_request "nobody@example.org" "hash:id1")
       tt tt tt (Account.Query.mk "nobody@example.org" "hash:id1")
       eq_refl eq_refl)).
Defined.


Lemma verifyEmail_wrong_token_witness :
  Account.errors_passed
    (Account.observed (Account.services0 86400000 false)
       (Account.verifyEmail
          (Account.verification_request "carol@example.org" "guess")) tt)
  = [ {| message := "Invalid Token"; statusCode := BAD_REQUEST |} ].
Proof.
  exact (f_equal (fun x => Account.errors_passed (snd (fst x)))
    (@verifyEmail_wrong_token unit (Account.services0 86400000 false)
       (Account.verification_request "carol@example.org" "guess")
       tt tt tt tt (Account.Query.mk "carol@example.org" "guess")
       (Account.Doc.mk "c1" (Some "hash:id1")
          (Some "2024-01-01T00:00:00.000Z"))
       86400000 eq_refl eq_refl eq_refl (Z.le_refl 86400000)
       ltac:(discriminate))).
Defined.


Lemma createUser_existing_user_witness :
  Account.errors_passed
    (Account.observed (Account.services0 0 false)
       (Account.createUser "https://app.example.org" "mail" (fun _ => true)
          (Account.registration_request "carol@example.org")) tt)
  = [ {| message := "User already exists"; statusCode := BAD_REQUEST |} ].
Proof.
  exact (f_equal (fun x => Account.errors_passed (snd (fst x)))
    (@createUser_existing_user unit (Account.services0 0 false)
       "https://app.example.org" "mail" (fun _ => true)
       (Account.registration_request "carol@example.org") tt tt tt
       (Account.Registration.mk "Dave" "Doe" "carol@example.org" "voter" "pw")
       (Account.Doc.mk "c1" (Some "hash:id1")
          (Some "2024-01-01T00:00:00.000Z"))
       eq_refl eq_refl)).
Defined.

Lemma createUser_validation_error_no_answer_witness :
  Account.answer_count
    (Account.observed (Account.services0 0 false)
       (Account.createUser "https://app.example.org" "mail" (fun _ => true)
          {| Account.body := [("email", "dave@example.org")];
             Account.query := [] |}) tt)
  = 0.
Proof.
  exact (f_equal (fun x => Account.answer_count (snd (fst x)))
    (@createUser_validation_error_no_answer unit (Account.services0 0 false)
       "https://app.example.org" "mail" (fun _ => true)
       {| Account.body := [("email", "dave@example.org")];
          Account.query := [] |}
       tt tt "ZodError" eq_refl eq_refl)).
Defined.

Lemma createUser_success_witness :
  Account.answer_count
    (Account.observed (Account.services0 0 false)
       (Account.createUser "https://app.example.org" "mail" (fun _ => true)
          (Account.registration_request "dave@example.org")) tt)
  = 1
  /\ existsb Account.writes
       (Account.observed (Account.services0 0 false)
          (Account.createUser "https://app.example.org" "mail" (fun _ => true)
             (Account.registration_request "dave@example.org")) tt)
     = true.
Proof.
  split.
  - exact (f_equal (fun x => Account.answer_count (snd (fst x)))
      (@createUser_success unit (Account.services0 0 false)
         "https://app.example.org" "mail" (fun _ => true)
         (Account.registration_request "dave@example.org")
         tt tt tt tt tt tt tt tt tt tt
         (Account.Registration.mk "Dave" "Doe" "dave@example.org" "voter" "pw")
         "hash:pw" "id2" "hash:id2" "2024-01-02T00:00:00.000Z"
         "https://app.example.org/verify/email/?email=dave@example.org&token=hash:id2"
         [("email", "dave@example.org")]
         eq_refl eq_refl eq_refl eq_refl eq_refl eq_refl eq_refl eq_refl
         eq_refl)).
  - reflexivity.
Defined.

Lemma createUser_saved_but_mail_fails_witness :
  Account.errors_passed
    (Account.observed (Account.services0 0 true)
       (Account.createUser "https://app.example.org" "mail" (fun _ => true)
          (Account.registration_request "dave@example.org")) tt)
  = [ {| message := "Something went wrong"; statusCode := INTERNAL_SERVER |} ].
Proof.
  exact (f_equal (fun x => Account.errors_passed (snd (fst x)))
    (@createUser_saved_but_mail_fails unit (Account.services0 0 true)
       "https://app.example.org" "mail" (fun _ => true)
       (Account.registration_request "dave@example.org")
       tt tt tt tt tt tt tt tt tt tt
       (Account.Registration.mk "Dave" "Doe" "dave@example.org" "voter" "pw")
       "hash:pw" "id2" "hash:id2" "2024-01-02T00:00:00.000Z"
       "https://app.example.org/verify/email/?email=dave@example.org&token=hash:id2"
       [("email", "dave@example.org")] "QueueError"
       eq_refl eq_refl eq_refl eq_refl eq_refl eq_refl eq_refl eq_refl
       eq_refl)).
Defined.

(** ** The session handlers when the store's writes fail *)

Lemma refreshTokenSets_update_rejects_witness :
  existsb sets_cookie
    (trace (write_fails utilities0)
       (refreshTokenSets env0 (cookie_request "rt0")) store1) = false
  /\ response_status
       (trace (write_fails utilities0)
          (refreshTokenSets env0 (cookie_request "rt0")) store1)
     = Some UN_AUTHORIZED.
Proof.
  pose proof
    (proj1
       (@refreshTokenSets_update_rejects Store (write_fails utilities0) env0
          (cookie_request "rt0") "rt0" store1 store1 store1 (tick store1)
          (tick store1) (tick store1) [] [] [] [] unauthorized
          (Payload.mk "a1" "alice@example.org" "voter")
          {| accessToken := "at1"; refreshToken := "rt1" |}
          "MongoNetworkError" (inr tt)
          eq_refl eq_refl eq_refl eq_refl eq_refl eq_refl)) as H.
  unfold trace. rewrite H. split; reflexivity.
Defined.

Lemma logOut_removal_rejects_witness :
  existsb (sends_status 204)
    (trace (write_fails utilities0) (logOut env0 (cookie_request "rt0"))
       store1) = false
  /\ world_after (write_fails utilities0) (logOut env0 (cookie_request "rt0"))
       store1 = store1.
Proof.
  pose proof
    (@logOut_removal_rejects Store (write_fails utilities0) env0
       (cookie_request "rt0") "rt0" store1 store1 store1 store1 store1
       [] [] [] unauthorized
       (Payload.mk "a1" "alice@example.org" "voter")
       "MongoNetworkError" (inr tt)
       eq_refl eq_refl eq_refl eq_refl eq_refl) as H.
  unfold trace, world_after. rewrite H. split; reflexivity.
Defined.

(** ** Replayed and racing tokens, whatever the imported modules are *)

Section ReplayAndRace.

Context {World : Type} (M : Collaborators World) (env : Env).



End ReplayAndRace.



